(** * Queries on data sets: a shallow embedding of [mara_data_explorer/query.py]

    The development follows the layout of the Python module: the [Filter]
    value object, the [Query] constructor with its schema validation, the SQL
    compiler ([to_sql], [filters_to_sql], [filter_to_sql]), the row counts,
    the serialisation to and from plain mappings, and the bucketing
    arithmetic of the number and date histograms.

    Conventions.
    - A Python [str] is a [string], one character per code point; this
      covers the code points below 256.  The query id is normalised by
      the definitions of this file when it is ASCII text; on other text
      the Unicode rules of [str.lower] and of the class of word
      characters apply, which are a section variable.
    - A raised exception is the [Raise] branch of [result]; the sequencing
      of Python statements is the bind of that monad.
    - A finite [decimal.Decimal] is the rational it denotes.  The
      operations of the library round their exact result to the 28 digits
      of the default context and raise [Overflow], [DivisionByZero] and
      [InvalidOperation] as that context does; cells hold finite numbers.
      [Decimal.log10] and the conversion to [float] are functions of the
      library and of the interpreter: they are section variables.
    - Functions imported from sibling modules that are not part of this
      file ([find_data_set], [quote_identifier], [quote_text_literal],
      [execute_query]) and third-party library calls (the [arrow] date
      library) are section variables. *)

From Stdlib Require Import ZArith QArith Qround Qabs Qpower List String Ascii.
From Stdlib Require Import Bool Lia Lqa.
From Stdlib Require Import DecimalString.
Import ListNotations.

Local Open Scope list_scope.
Local Open Scope Z_scope.
Local Open Scope string_scope.

(** ** Python prelude *)

(** The exceptions the modelled code can raise.  [Propagated] carries an
    error of a collaborator (data set lookup, SQL execution, quoting). *)
Inductive exception : Type :=
| KeyError
| IndexError
| TypeError
| ValueError
| AttributeError
| NameError
| InvalidOperation
| DivisionByZero
| Overflow
| OverflowError
| Propagated (what : string).

Inductive result (A : Type) : Type :=
| Ok (a : A)
| Raise (e : exception).

Arguments Ok {A} a.
Arguments Raise {A} e.

Definition bind {A B : Type} (m : result A) (k : A -> result B) : result B :=
  match m with
  | Ok a => k a
  | Raise e => Raise e
  end.

Notation "x <- m ;; k" := (bind m (fun x => k))
  (at level 61, m at next level, right associativity).

Notation "' p <- m ;; k" := (bind m (fun x => match x with p => k end))
  (at level 61, p pattern, m at next level, right associativity).

(** [[f(x) for x in xs]] where [f] may raise: the first exception wins. *)
Fixpoint traverse {A B : Type} (f : A -> result B) (xs : list A)
  : result (list B) :=
  match xs with
  | [] => Ok []
  | x :: xs' => y <- f x ;; ys <- traverse f xs' ;; Ok (y :: ys)
  end.

Definition nl : string := String "010"%char "".
Definition squote : string := "'".

(** [str(n)] for a Python [int]. *)
Definition str_int (z : Z) : string := NilZero.string_of_int (Z.to_int z).

(** Scalars a filter value may hold (the JSON scalars without floats). *)
Inductive scalar : Type :=
| SNone
| SBool (b : bool)
| SInt (z : Z)
| SStr (s : string).

(** A filter value: a scalar or a list of scalars. *)
Inductive value : Type :=
| VScalar (x : scalar)
| VList (xs : list scalar).

Definition string_is_empty (s : string) : bool :=
  match s with
  | EmptyString => true
  | String _ _ => false
  end.

(** Python truth value testing. *)
Definition truthy_scalar (x : scalar) : bool :=
  match x with
  | SNone => false
  | SBool b => b
  | SInt z => negb (z =? 0)%Z
  | SStr s => negb (string_is_empty s)
  end.

Definition truthy (v : value) : bool :=
  match v with
  | VScalar x => truthy_scalar x
  | VList [] => false
  | VList (_ :: _) => true
  end.

Definition truthy_opt_string (o : option string) : bool :=
  match o with
  | None => false
  | Some s => negb (string_is_empty s)
  end.

Definition hex_digit (n : nat) : ascii :=
  ascii_of_nat (if Nat.ltb n 10 then 48 + n else 87 + n).

(** [repr] of a [str]: the text is put in single quotes unless it holds a
    single quote and no double quote; backslash, the chosen quote and
    control characters are escaped. *)
Definition dquote_char : ascii := ascii_of_nat 34.
Definition squote_char : ascii := "'"%char.
Definition backslash : ascii := ascii_of_nat 92.

Fixpoint contains_char (c : ascii) (s : string) : bool :=
  match s with
  | EmptyString => false
  | String c' s' => Ascii.eqb c c' || contains_char c s'
  end.

Fixpoint repr_body (q : ascii) (s : string) : string :=
  match s with
  | EmptyString => EmptyString
  | String c s' =>
      let n := nat_of_ascii c in
      let rest := repr_body q s' in
      if Ascii.eqb c q || Ascii.eqb c backslash then
        String backslash (String c rest)
      else if Nat.eqb n 9 then String backslash (String "t"%char rest)
      else if Nat.eqb n 10 then String backslash (String "n"%char rest)
      else if Nat.eqb n 13 then String backslash (String "r"%char rest)
      else if Nat.ltb n 32 || Nat.eqb n 127 then
        String backslash (String "x"%char
          (String (hex_digit (Nat.div n 16))
             (String (hex_digit (Nat.modulo n 16)) rest)))
      else String c rest
  end.

Definition repr_str (s : string) : string :=
  let q := if contains_char squote_char s && negb (contains_char dquote_char s)
           then dquote_char else squote_char in
  String q (repr_body q s ++ String q "").

(** [str(x)], which is what an f-string placeholder renders. *)
Definition str_scalar (x : scalar) : string :=
  match x with
  | SNone => "None"
  | SBool true => "True"
  | SBool false => "False"
  | SInt z => str_int z
  | SStr s => s
  end.

Definition repr_scalar (x : scalar) : string :=
  match x with
  | SStr s => repr_str s
  | _ => str_scalar x
  end.

Definition str_value (v : value) : string :=
  match v with
  | VScalar x => str_scalar x
  | VList xs => "[" ++ String.concat ", " (map repr_scalar xs) ++ "]"
  end.

Fixpoint chars_of (s : string) : list scalar :=
  match s with
  | EmptyString => []
  | String c s' => SStr (String c "") :: chars_of s'
  end.

(** [for value in filter.value or ['']]: a falsy value is replaced by the
    list holding the empty string; a list is walked, a string is walked
    character by character, any other truthy scalar is not iterable. *)
Definition values_or_blank (v : value) : result (list scalar) :=
  if truthy v then
    match v with
    | VList xs => Ok xs
    | VScalar (SStr s) => Ok (chars_of s)
    | VScalar _ => Raise TypeError
    end
  else Ok [SStr ""].

(** [xs[i]] on a Python list: negative positions count from the end. *)
Definition py_index {A : Type} (xs : list A) (i : Z) : result A :=
  let n := Z.of_nat (List.length xs) in
  let j := if (i <? 0)%Z then i + n else i in
  if ((0 <=? j) && (j <? n))%Z then
    match nth_error xs (Z.to_nat j) with
    | Some x => Ok x
    | None => Raise IndexError
    end
  else Raise IndexError.

(** A mapping with insertion order, as a Python [dict]: the keys of a
    [dict] are distinct, and a lookup takes the first binding of a key. *)
Definition dict (A : Type) : Type := list (string * A).

Fixpoint dict_get {A : Type} (d : dict A) (k : string) : option A :=
  match d with
  | [] => None
  | (k', a) :: d' => if String.eqb k k' then Some a else dict_get d' k
  end.

Definition dict_mem {A : Type} (d : dict A) (k : string) : bool :=
  match dict_get d k with
  | Some _ => true
  | None => false
  end.

Definition dict_keys {A : Type} (d : dict A) : list string := map fst d.

(** [d[k]] *)
Definition dict_item {A : Type} (d : dict A) (k : string) : result A :=
  match dict_get d k with
  | Some a => Ok a
  | None => Raise KeyError
  end.

Definition list_mem (k : string) (l : list string) : bool :=
  existsb (String.eqb k) l.

(** ** The data set (schema) the query reads *)

Module Column.
Record t : Type := mk { column_name : string; type : string }.
End Column.

Module DataSet.
Record t : Type := mk {
  id : string;
  database_alias : string;
  database_schema : string;
  database_table : string;
  columns : dict Column.t;
  default_column_names : list string;
  personal_data_column_names : list string
}.
End DataSet.

(** ** class Filter *)

Module Filter.
Record t : Type := mk {
  column_name : string;
  operator : string;
  value : value
}.
End Filter.

(** The mapping produced by [Filter.to_dict]. *)
Module FilterDict.
Record t : Type := mk {
  column_name : string;
  operator : string;
  value : value
}.
End FilterDict.

Definition Filter_to_dict (f : Filter.t) : FilterDict.t :=
  FilterDict.mk (Filter.column_name f) (Filter.operator f) (Filter.value f).

Definition Filter_from_dict (d : FilterDict.t) : Filter.t :=
  Filter.mk (FilterDict.column_name d) (FilterDict.operator d)
            (FilterDict.value d).

(** ** Text helpers used by the constructor *)

Definition in_range (lo hi : nat) (c : ascii) : bool :=
  let n := nat_of_ascii c in Nat.leb lo n && Nat.leb n hi.

(** A text is ASCII when each of its characters has a code below 128.
    Text with other characters is held in its UTF-8 encoding. *)
Definition is_ascii_char (c : ascii) : bool := Nat.ltb (nat_of_ascii c) 128.

Fixpoint is_ascii_text (s : string) : bool :=
  match s with
  | EmptyString => true
  | String c s' => is_ascii_char c && is_ascii_text s'
  end.

(** The query id argument is ASCII text or absent. *)
Definition ascii_id (query_id : option string) : bool :=
  match query_id with
  | Some s => is_ascii_text s
  | None => true
  end.

(** [\w] for an ASCII character: letters, digits and the underscore.  It
    is only consulted on ASCII text. *)
Definition is_word (c : ascii) : bool :=
  in_range 48 57 c || in_range 65 90 c || in_range 97 122 c
  || Nat.eqb (nat_of_ascii c) 95.

(** [re.sub(r'\W+', '-', s)]: every maximal run of non-word characters
    becomes one dash.  [in_run] tells that the previous character already
    belonged to the run being replaced. *)
Fixpoint sub_nonword (in_run : bool) (s : string) : string :=
  match s with
  | EmptyString => EmptyString
  | String c s' =>
      if is_word c then String c (sub_nonword false s')
      else if in_run then sub_nonword true s'
      else String "-"%char (sub_nonword true s')
  end.

(** [str.lower] for an ASCII character; only consulted on ASCII text. *)
Definition lower_char (c : ascii) : ascii :=
  if in_range 65 90 c then ascii_of_nat (nat_of_ascii c + 32) else c.

Fixpoint lower (s : string) : string :=
  match s with
  | EmptyString => EmptyString
  | String c s' => String (lower_char c) (lower s')
  end.

(** [re.sub(r'\W+', '-', query_id).lower() if query_id else ''].  On ASCII
    text the two library calls are the functions above.  On other text
    they follow the Unicode tables of the [re] and [str] libraries, which
    are no part of this file: [normalize_unicode] stands for
    [re.sub(r'\W+', '-', s).lower()] there. *)
Definition normalize_query_id (normalize_unicode : string -> string)
    (query_id : option string) : string :=
  if truthy_opt_string query_id then
    match query_id with
    | Some s =>
        if is_ascii_text s then lower (sub_nonword false s)
        else normalize_unicode s
    | None => ""
    end
  else "".

(** ** Audit time stamps *)

Record datetime : Type := mk_datetime {
  year : Z; month : Z; day : Z; hour : Z; minute : Z; second : Z
}.

Definition pad (width : nat) (z : Z) : string :=
  let s := str_int z in
  String.concat "" (repeat "0" (width - String.length s)) ++ s.

(** [d.strftime('%Y-%m-%d')], as the C library of Linux renders it: month
    and day take two digits, the year is written without padding (the
    year 999 gives [999-01-02]). *)
Definition strftime_Ymd (d : datetime) : string :=
  str_int (year d) ++ "-" ++ pad 2 (month d) ++ "-" ++ pad 2 (day d).

(** What the [created_at] and [updated_at] attributes can hold: the
    constructor stores whatever it is given, a [datetime] from the
    database or the text found in a deserialised mapping. *)
Inductive py_time : Type :=
| PyDatetime (d : datetime)
| PyStr (s : string).

(** [t.strftime('%Y-%m-%d') if t else None] *)
Definition format_time (t : option py_time) : result (option py_time) :=
  match t with
  | None => Ok None
  | Some (PyDatetime d) => Ok (Some (PyStr (strftime_Ymd d)))
  | Some (PyStr s) =>
      if string_is_empty s then Ok None else Raise AttributeError
  end.

(** ** class Query *)

Record Query : Type := mk_Query {
  data_set : DataSet.t;
  data_set_id : string;
  query_id : string;
  column_names : list string;
  sort_column_name : option string;
  sort_order : option string;
  filters : list Filter.t;
  created_at : option py_time;
  created_by : option string;
  updated_at : option py_time;
  updated_by : option string
}.

(** The mapping produced by [Query.to_dict] and read by [Query.from_dict];
    the fields are the keyword arguments of the constructor. *)
Module QueryDict.
Record t : Type := mk {
  data_set_id : string;
  query_id : option string;
  column_names : option (list string);
  sort_column_name : option string;
  sort_order : option string;
  filters : list FilterDict.t;
  created_at : option py_time;
  created_by : option string;
  updated_at : option py_time;
  updated_by : option string
}.
End QueryDict.

Definition list_is_empty {A : Type} (l : list A) : bool :=
  match l with
  | [] => true
  | _ :: _ => false
  end.

Definition or_empty {A : Type} (o : option (list A)) : list A :=
  match o with
  | Some l => l
  | None => []
  end.

Section Construction.

(** [find_data_set] of the [data_set] module: the schema provider. *)
Variable find_data_set : string -> result DataSet.t.

(** The normalisation of a query id that holds non-ASCII characters. *)
Variable normalize_unicode : string -> string.

(** [Query.__init__].  [sort_order] is the value the caller passes
    (['ASC'] when the argument is left out). *)
Definition new_query
    (data_set_id : string) (query_id : option string)
    (column_names : option (list string))
    (sort_column_name : option string) (sort_order : option string)
    (filters : option (list Filter.t))
    (created_at : option py_time) (created_by : option string)
    (updated_at : option py_time) (updated_by : option string)
  : result Query :=
  ds <- find_data_set data_set_id ;;
  let cols := DataSet.columns ds in
  let names0 := or_empty column_names in
  let names1 :=
    if list_is_empty names0
    then filter (dict_mem cols) (DataSet.default_column_names ds)
    else names0 in
  let names2 :=
    if list_is_empty names1 then dict_keys cols else names1 in
  let sort_column :=
    match sort_column_name with
    | Some c => if dict_mem cols c then Some c else None
    | None => None
    end in
  Ok {| data_set := ds;
        data_set_id := data_set_id;
        query_id := normalize_query_id normalize_unicode query_id;
        column_names := names2;
        sort_column_name := sort_column;
        sort_order := sort_order;
        filters :=
          filter (fun f => dict_mem cols (Filter.column_name f))
                 (or_empty filters);
        created_at := created_at;
        created_by := created_by;
        updated_at := updated_at;
        updated_by := updated_by |}.

(** [Query.to_dict] *)
Definition to_dict (q : Query) : result QueryDict.t :=
  c <- format_time (created_at q) ;;
  u <- format_time (updated_at q) ;;
  Ok {| QueryDict.data_set_id := DataSet.id (data_set q);
        QueryDict.query_id := Some (query_id q);
        QueryDict.column_names := Some (column_names q);
        QueryDict.sort_column_name := sort_column_name q;
        QueryDict.sort_order := sort_order q;
        QueryDict.filters := map Filter_to_dict (filters q);
        QueryDict.created_at := c;
        QueryDict.created_by := created_by q;
        QueryDict.updated_at := u;
        QueryDict.updated_by := updated_by q |}.

(** [Query.from_dict] *)
Definition from_dict (d : QueryDict.t) : result Query :=
  new_query (QueryDict.data_set_id d) (QueryDict.query_id d)
            (QueryDict.column_names d) (QueryDict.sort_column_name d)
            (QueryDict.sort_order d)
            (Some (map Filter_from_dict (QueryDict.filters d)))
            (QueryDict.created_at d) (QueryDict.created_by d)
            (QueryDict.updated_at d) (QueryDict.updated_by d).

End Construction.

(** ** The SQL compiler and the row counts *)

(** A value of a result row. *)
Inductive cell : Type :=
| CNull
| CNum (x : Q)
| CText (s : string).

Definition row : Type := list cell.

Section Compiler.

(** [quote_identifier] and [quote_text_literal] of the [sql] module.
    The literal quoting receives whatever the filter value holds. *)
Variable quote_identifier : string -> string -> string.
Variable quote_text_literal : string -> scalar -> result string.

(** [execute_query] of the [sql] module: rows and column names. *)
Variable execute_query : string -> string -> result (list row * list string).

Definition db_of (q : Query) : string := DataSet.database_alias (data_set q).

Definition quoted_table (q : Query) : string :=
  quote_identifier (db_of q) (DataSet.database_schema (data_set q)) ++ "."
  ++ quote_identifier (db_of q) (DataSet.database_table (data_set q)).

(** [Query.filter_to_sql] *)
Definition filter_to_sql (q : Query) (f : Filter.t) : result string :=
  column <- dict_item (DataSet.columns (data_set q)) (Filter.column_name f) ;;
  let type := Column.type column in
  let db := db_of q in
  if String.eqb type "text" then
    if String.eqb (Filter.operator f) "~" then
      values <- values_or_blank (Filter.value f) ;;
      clauses <- traverse
        (fun v =>
           lit <- quote_text_literal db v ;;
           Ok ("lower(" ++ quote_identifier db (Filter.column_name f)
               ++ ") LIKE concat('%', " ++ lit ++ ", '%')"))
        values ;;
      Ok ("(" ++ String.concat " OR " clauses ++ ")")
    else
      values <- values_or_blank (Filter.value f) ;;
      Ok (quote_identifier db (Filter.column_name f) ++ " "
          ++ (if String.eqb (Filter.operator f) "=" then "IN" else "NOT IN") ++ " ("
          ++ String.concat ", "
               (map (fun v => "'" ++ str_scalar v ++ "'") values)
          ++ ")")
  else if String.eqb type "text[]" then
    values <- values_or_blank (Filter.value f) ;;
    let clause :=
      quote_identifier db (Filter.column_name f) ++ " && ARRAY["
      ++ String.concat ", "
           (map (fun v => "'" ++ str_scalar v ++ "'") values)
      ++ "]::TEXT[]" in
    if String.eqb (Filter.operator f) "!=" then Ok (" not (" ++ clause ++ ")")
    else Ok clause
  else if String.eqb type "number" then
    Ok (quote_identifier db (Filter.column_name f) ++ " "
        ++ Filter.operator f ++ " " ++ str_value (Filter.value f))
  else if String.eqb type "date" then
    Ok (quote_identifier db (Filter.column_name f) ++ " "
        ++ Filter.operator f ++ " '" ++ str_value (Filter.value f) ++ "' ")
  else Ok "1=1".

(** [Query.filters_to_sql] *)
Definition filters_to_sql (q : Query) : result string :=
  if list_is_empty (filters q) then Ok ""
  else
    parts <- traverse (filter_to_sql q) (filters q) ;;
    Ok ("WHERE " ++ String.concat (nl ++ "  AND ") parts ++ nl).

(** One entry of the select list of [to_sql]. *)
Definition select_item (q : Query) (decimal_mark : string)
    (include_personal_data : bool) (column_name : string) : result string :=
  let db := db_of q in
  if negb include_personal_data
     && list_mem column_name (DataSet.personal_data_column_names (data_set q))
  then Ok (quote_identifier db "🔒" ++ " AS "
           ++ quote_identifier db column_name)
  else
    column <- dict_item (DataSet.columns (data_set q)) column_name ;;
    if String.eqb (Column.type column) "number" && String.eqb decimal_mark "," then
      Ok ("REPLACE('' || " ++ quote_identifier db column_name
          ++ ", '.', ',') AS " ++ quote_identifier db column_name)
    else Ok (quote_identifier db column_name).

(** The [ORDER BY] clause of [to_sql]. *)
Definition order_by_sql (q : Query) : string :=
  match sort_order q, sort_column_name q with
  | Some order, Some column =>
      if negb (string_is_empty order) && negb (string_is_empty column) then
        nl ++ "ORDER BY " ++ quote_identifier (db_of q) column ++ " "
        ++ order ++ " NULLS LAST" ++ nl
      else ""
  | _, _ => ""
  end.

Definition limit_sql (keyword : string) (n : option Z) : string :=
  match n with
  | Some z => nl ++ keyword ++ " " ++ str_int z ++ nl
  | None => ""
  end.

(** [Query.to_sql] *)
Definition to_sql (q : Query) (limit offset : option Z)
    (decimal_mark : string) (include_personal_data : bool)
  : result (option string) :=
  if list_is_empty (column_names q) then Ok None
  else
    columns <- traverse (select_item q decimal_mark include_personal_data)
                        (column_names q) ;;
    where_ <- filters_to_sql q ;;
    Ok (Some (nl ++ "SELECT " ++ String.concat ("," ++ nl ++ "       ") columns
              ++ nl ++ "FROM " ++ quoted_table q ++ nl ++ where_
              ++ order_by_sql q
              ++ limit_sql "LIMIT" limit ++ limit_sql "OFFSET" offset)).

Definition count_sql : string :=
  nl ++ "SELECT count(*) " ++ nl ++ "FROM ".

(** [Query.row_count] *)
Definition row_count (q : Query) : result cell :=
  where_ <- filters_to_sql q ;;
  '(rows, _) <- execute_query (db_of q)
    (count_sql ++ quoted_table q ++ nl ++ where_ ++ nl) ;;
  first <- py_index rows 0 ;;
  py_index first 0.

(** [Query.filter_row_count] *)
Definition filter_row_count (q : Query) (filter_pos : Z)
  : result (list row) :=
  f <- py_index (filters q) filter_pos ;;
  predicate <- filter_to_sql q f ;;
  '(rows, _) <- execute_query (db_of q)
    (count_sql ++ quoted_table q ++ " " ++ nl ++ "WHERE " ++ predicate) ;;
  Ok rows.

End Compiler.

(** ** [decimal.Decimal] under the default context *)

(** The module does not touch the context of the [decimal] library, so
    its arithmetic runs under the default one: 28 significant digits,
    rounding half to even, exponents from [Emin] to [Emax]; of the
    signals, [InvalidOperation], [DivisionByZero] and [Overflow] raise,
    the others ([Inexact], [Rounded], [Subnormal], [Underflow]) do not.
    A finite decimal is modelled by its value, a rational kept in lowest
    terms after every operation. *)
Definition prec : Z := 28.
Definition Emax : Z := 999999.
Definition Emin : Z := -999999.
Definition Etiny : Z := Emin - prec + 1.

(** The power of ten of an exponent, as a rational. *)
Definition pow10 (exponent : Z) : Q := Qpower (10 # 1) exponent.

(** The least [e] with [x <= 10^e] for a positive [x], found by counting
    up from 0 when [x > 1] and down from 0 otherwise. *)
Fixpoint log10_up (fuel : nat) (n d k : Z) : Z :=
  match fuel with
  | O => k
  | S fuel' => if (n <=? d * 10 ^ k)%Z then k else log10_up fuel' n d (k + 1)
  end.

Fixpoint log10_down (fuel : nat) (n d k : Z) : Z :=
  match fuel with
  | O => k
  | S fuel' =>
      if (n * 10 ^ (k + 1) <=? d)%Z then log10_down fuel' n d (k + 1) else k
  end.

Definition ceil_log10 (x : Q) : Z :=
  let n := Qnum x in
  let d := Z.pos (Qden x) in
  if (n <=? d)%Z then - log10_down (S (Z.to_nat (Z.log2 d))) n d 0
  else log10_up (S (Z.to_nat (Z.log2 n))) n d 0.

Definition is_zero (x : Q) : bool := Qeq_bool x 0.

(** [x.adjusted()] for a decimal other than zero: the exponent of its
    leading digit, the [e] with [10^e <= |x| < 10^(e+1)]. *)
Definition adjusted (x : Q) : Z :=
  let k := ceil_log10 (Qabs x) in
  if Qeq_bool (Qabs x) (pow10 k) then k else (k - 1)%Z.

(** Rounding to the nearest integer, a tie to the even one. *)
Definition round_half_even (x : Q) : Z :=
  let f := Qfloor x in
  match (x - inject_Z f ?= 1 # 2)%Q with
  | Lt => f
  | Gt => (f + 1)%Z
  | Eq => if Z.even f then f else (f + 1)%Z
  end.

(** The rounding that ends every arithmetic operation of the library: the
    exact result is rounded to [prec] digits, or to the multiple of
    [10^Etiny] when it is subnormal (which may give zero, silently); a
    rounded result whose leading digit lies above [Emax] raises
    [Overflow]. *)
Definition context_round (x : Q) : result Q :=
  if is_zero x then Ok 0%Q
  else
    let quantum := pow10 (Z.max (adjusted x - (prec - 1)) Etiny) in
    let y := (inject_Z (round_half_even (x / quantum)) * quantum)%Q in
    if is_zero y then Ok 0%Q
    else if (Emax <? adjusted y)%Z then Raise Overflow
    else Ok (Qred y).

(** [pow(_10, exponent)] with [_10 = decimal.Decimal(10)] and an [int]
    exponent: above [Emax] the power overflows, below [Etiny] it
    underflows to zero. *)
Definition decimal_pow10 (exponent : Z) : result Q :=
  if (Emax <? exponent)%Z then Raise Overflow
  else if (exponent <? Etiny)%Z then Ok 0%Q
  else Ok (pow10 exponent).

(** [x / y] on decimals. *)
Definition decimal_div (x y : Q) : result Q :=
  if is_zero y then
    if is_zero x then Raise InvalidOperation else Raise DivisionByZero
  else context_round (x / y).

(** [n * y] for an [int] or decimal [n] and a decimal [y]: an [int] is
    converted exactly. *)
Definition decimal_mul (n y : Q) : result Q := context_round (n * y).

(** [abs(x)] on a decimal, which rounds as every operation does. *)
Definition decimal_abs (x : Q) : result Q := context_round (Qabs x).

(** ** Number histogram: the bucketing arithmetic *)

(** [math.floor(x / pow(_10, exponent))] and [math.ceil(...)] *)
Definition scaled_floor (x : Q) (exponent : Z) : result Z :=
  p <- decimal_pow10 exponent ;;
  d <- decimal_div x p ;;
  Ok (Qfloor d).

Definition scaled_ceil (x : Q) (exponent : Z) : result Z :=
  p <- decimal_pow10 exponent ;;
  d <- decimal_div x p ;;
  Ok (Qceiling d).

Definition min_buckets : Z := 5.

(** The [while True] loop: [fuel] bounds the number of iterations and
    [None] tells that the bound was reached.  The loop ends with an
    exception of the decimal arithmetic, or with the exponent at which it
    stops and the [min_] and [max_] found there. *)
Fixpoint find_buckets (fuel : nat) (min_value max_value : Q) (exponent : Z)
  : option (result (Z * Z * Z)) :=
  match fuel with
  | O => None
  | S fuel' =>
      match scaled_floor min_value exponent with
      | Raise e => Some (Raise e)
      | Ok min_ =>
          match scaled_ceil max_value exponent with
          | Raise e => Some (Raise e)
          | Ok max_ =>
              if (min_buckets <? max_ - min_)%Z
              then Some (Ok (exponent, min_, max_))
              else find_buckets fuel' min_value max_value (exponent + -1)
          end
      end
  end.

(** [range(0, n)] *)
Definition py_range (n : Z) : list Z := map Z.of_nat (seq 0 (Z.to_nat n)).

(** A Python [float]: a finite number or an infinity. *)
Inductive pyfloat : Type :=
| Finite (x : Q)
| Infinite (negative : bool).

(** The count of a histogram entry: the cell of the bucket query as it
    came, or the [float] made of the count of the statistics query. *)
Inductive entry_count : Type :=
| AsReturned (c : cell)
| AsFloat (f : pyfloat).

(** A histogram entry: lower bound, upper bound, count. *)
Definition histogram_entry : Type := (pyfloat * pyfloat * entry_count)%type.

(** [decimal.Decimal(c)] for a cell of a numeric column, which is exact.
    Parsing a text cell is not modelled: it is reported as invalid. *)
Definition to_decimal (c : cell) : result Q :=
  match c with
  | CNull => Raise TypeError
  | CNum x => Ok x
  | CText _ => Raise InvalidOperation
  end.

Definition cell_is_none (c : cell) : bool :=
  match c with
  | CNull => true
  | _ => false
  end.

(** [max(a, b)] on logarithms, where [None] stands for [-Infinity]: the
    first argument unless the second is greater. *)
Definition max_log (a b : option Q) : option Q :=
  match a, b with
  | Some x, Some y => if Qle_bool y x then Some x else Some y
  | Some x, None => Some x
  | None, _ => b
  end.

(** [math.ceil] of a logarithm; an infinity cannot be converted. *)
Definition ceil_log (m : option Q) : result Z :=
  match m with
  | Some v => Ok (Qceiling v)
  | None => Raise OverflowError
  end.

Section NumberDistribution.

Variable quote_identifier : string -> string -> string.
Variable quote_text_literal : string -> scalar -> result string.
Variable execute_query : string -> string -> result (list row * list string).

(** [Decimal.log10] on a positive decimal: the decimal logarithm, rounded
    to the precision of the context by the library. *)
Variable log10 : Q -> Q.

(** [float(x)]: the conversion of a number to the nearest [float], done
    by the interpreter. *)
Variable float : Q -> pyfloat.

(** [str(x)] of a [float], the text an f-string renders. *)
Variable float_str : pyfloat -> string.

Let filter_sql := filter_to_sql quote_identifier quote_text_literal.
Let table := quoted_table quote_identifier.

(** [abs(x).log10() if x != 0 else 0]; the logarithm of a value whose
    absolute value the context rounds to zero is [-Infinity]. *)
Definition log_magnitude (x : Q) : result (option Q) :=
  if is_zero x then Ok (Some 0%Q)
  else
    a <- decimal_abs x ;;
    Ok (if is_zero a then None else Some (log10 a)).

(** [math.ceil(max(abs(min_value).log10() if min_value != 0 else 0,
                   abs(max_value).log10() if max_value != 0 else 0))] *)
Definition start_exponent (min_value max_value : Q) : result Z :=
  a <- log_magnitude min_value ;;
  b <- log_magnitude max_value ;;
  ceil_log (max_log a b).

(** [float(c)] for the count, an [int]: a number beyond the range of
    [float] raises. *)
Definition to_float (c : cell) : result pyfloat :=
  match c with
  | CNull => Raise TypeError
  | CNum x =>
      match float x with
      | Infinite _ => Raise OverflowError
      | Finite y => Ok (Finite y)
      end
  | CText _ => Raise ValueError
  end.

(** [float(n * pow(_10, exponent))] *)
Definition bucket_bound (n : Q) (exponent : Z) : result pyfloat :=
  p <- decimal_pow10 exponent ;;
  d <- decimal_mul n p ;;
  Ok (float d).

(** The list [buckets] of the loop body. *)
Definition buckets (exponent min_ max_ : Z)
  : result (list (Z * pyfloat * pyfloat)) :=
  traverse (fun bucket =>
              lower <- bucket_bound (inject_Z (min_ + bucket)) exponent ;;
              upper <- bucket_bound (inject_Z (min_ + bucket + 1)) exponent ;;
              Ok (bucket, lower, upper))
           (py_range (max_ - min_)).

(** The list the [for] statement walks: every bucket with its upper
    bound. *)
Definition bucket_maxima (exponent min_ max_ : Z)
  : result (list (Z * pyfloat)) :=
  traverse (fun bucket =>
              upper <- bucket_bound (inject_Z (min_ + bucket + 1)) exponent ;;
              Ok (bucket, upper))
           (py_range (max_ - min_)).

(** [('AND ' + ' AND '.join([...])) if self.filters else ''] *)
Definition and_filters_sql (q : Query) : result string :=
  if list_is_empty (filters q) then Ok ""
  else
    parts <- traverse (filter_sql q) (filters q) ;;
    Ok ("AND " ++ String.concat " AND " parts).

Definition number_stats_sql (q : Query) (column_name and_filters : string)
  : string :=
  let col := quote_identifier (db_of q) column_name in
  nl ++ "SELECT min(" ++ col ++ ") AS min_value," ++ nl
  ++ "       max(" ++ col ++ ") AS max_value," ++ nl
  ++ "       count(*)                        AS number_of_values" ++ nl
  ++ "FROM " ++ table q ++ nl
  ++ "WHERE " ++ col ++ " IS NOT NULL" ++ nl
  ++ "      " ++ and_filters ++ nl.

(** The first statement of [number_distribution]: minimum, maximum and
    number of values, [None] when the minimum is [None]. *)
Definition number_stats (q : Query) (column_name : string)
  : result (option (Q * Q * cell)) :=
  and_filters <- and_filters_sql q ;;
  '(rows, _) <- execute_query (db_of q)
                  (number_stats_sql q column_name and_filters) ;;
  first <- py_index rows 0 ;;
  match first with
  | [min_value; max_value; number_of_values] =>
      if cell_is_none min_value then Ok None
      else
        lo <- to_decimal min_value ;;
        hi <- to_decimal max_value ;;
        Ok (Some (lo, hi, number_of_values))
  | _ => Raise ValueError
  end.

Definition when_sql (q : Query) (column_name : string)
    (item : Z * pyfloat) : string :=
  let '(bucket, bucket_max_value) := item in
  nl ++ "    WHEN " ++ quote_identifier (db_of q) column_name ++ " <= "
  ++ float_str bucket_max_value
  ++ " THEN " ++ str_int bucket.

Definition number_buckets_sql (q : Query) (column_name : string)
    (maxima : list (Z * pyfloat)) (and_filters : string) : string :=
  "SELECT CASE "
  ++ String.concat "" (map (when_sql q column_name) maxima)
  ++ nl ++ "  END as bucket,                " ++ nl
  ++ "  count(*) AS n" ++ nl
  ++ "FROM " ++ table q ++ nl
  ++ "WHERE " ++ quote_identifier (db_of q) column_name ++ " IS NOT NULL" ++ nl
  ++ "   " ++ and_filters ++ nl
  ++ "GROUP by bucket" ++ nl
  ++ "ORDER BY bucket" ++ nl.

(** One element of the returned list; the bucket number is an integer of
    the database, and [min_ + bucket] needs a number. *)
Definition histogram_row (exponent min_ : Z) (r : row)
  : result histogram_entry :=
  match r with
  | [bucket; n] =>
      b <- match bucket with
           | CNum b => Ok b
           | _ => Raise TypeError
           end ;;
      lower <- bucket_bound (inject_Z min_ + b) exponent ;;
      upper <- bucket_bound (inject_Z min_ + b + 1) exponent ;;
      Ok (lower, upper, AsReturned n)
  | _ => Raise ValueError
  end.

(** The body of the loop once the test succeeds. *)
Definition number_buckets (q : Query) (column_name : string)
    (exponent min_ max_ : Z) : result (list histogram_entry) :=
  _ <- buckets exponent min_ max_ ;;
  maxima <- bucket_maxima exponent min_ max_ ;;
  and_filters <- and_filters_sql q ;;
  '(rows, _) <- execute_query (db_of q)
    (number_buckets_sql q column_name maxima and_filters) ;;
  traverse (histogram_row exponent min_) rows.

(** [Query.number_distribution]; [None] when [fuel] iterations of the
    loop were not enough. *)
Definition number_distribution (fuel : nat) (q : Query)
    (column_name : string) : option (result (list histogram_entry)) :=
  match number_stats q column_name with
  | Raise e => Some (Raise e)
  | Ok None => Some (Ok [])
  | Ok (Some (min_value, max_value, number_of_values)) =>
      match start_exponent min_value max_value with
      | Raise e => Some (Raise e)
      | Ok exponent =>
          if Qeq_bool min_value max_value then
            Some (n <- to_float number_of_values ;;
                  Ok [(float min_value, float max_value, AsFloat n)])
          else
            match find_buckets fuel min_value max_value exponent with
            | None => None
            | Some (Raise e) => Some (Raise e)
            | Some (Ok (exponent, min_, max_)) =>
                Some (number_buckets q column_name exponent min_ max_)
            end
      end
  end.

End NumberDistribution.

(** ** Date histogram: the choice of the resolution *)

(** The [resolutions] mapping: frame name to label format, in source
    order. *)
Definition resolutions : dict string :=
  [("year", "%Y"); ("month", "%Y %b"); ("week", "%Y - CW %U");
   ("day", "%a, %d %b %Y")].

Section DateDistribution.

(** Values of the [arrow] library with [Arrow.range(frame, start, end)]
    and [value.floor(frame)]. *)
Variable arrow : Type.
Variable Arrow_range : string -> arrow -> arrow -> list arrow.
Variable Arrow_floor : arrow -> string -> arrow.

(** [len(list(arrow.Arrow.range(resolution, min_value, max_value)))] *)
Definition periods (min_value max_value : arrow) (resolution : string) : Z :=
  Z.of_nat (List.length (Arrow_range resolution min_value max_value)).

(** The [for resolution in resolutions.keys(): ... break] loop.  The
    second argument is the loop variable as left by the previous
    iteration; the result is its value after the loop. *)
Fixpoint for_resolution (keys : list string) (resolution : option string)
    (min_value max_value : arrow) : option string :=
  match keys with
  | [] => resolution
  | r :: keys' =>
      if (min_buckets <=? periods min_value max_value r)%Z then Some r
      else for_resolution keys' (Some r) min_value max_value
  end.

(** Lines 337 to 348 of [date_distribution]: the chosen resolution and
    the two floored bounds. *)
Definition date_distribution_range (min_value max_value : arrow)
  : result (string * arrow * arrow) :=
  match for_resolution (dict_keys resolutions) None min_value max_value with
  | None => Raise NameError
  | Some resolution =>
      Ok (resolution, Arrow_floor min_value resolution,
          Arrow_floor max_value resolution)
  end.

(** The rule in the words of the specification: the first resolution of
    the candidate list reaching [min_buckets] periods, and day when there
    is none. *)
Definition coarsest_resolution (min_value max_value : arrow) : string :=
  match find (fun r => (min_buckets <=? periods min_value max_value r)%Z)
             ["year"; "month"; "week"; "day"] with
  | Some r => r
  | None => "day"
  end.

End DateDistribution.

(** ** Running and exporting a query *)

(** A value of a fetched row as the exports see it: text, an array, a
    time stamp, or anything else. *)
Inductive sheet_value : Type :=
| GStr (s : string)
| GList (xs : list scalar)
| GDatetime (d : datetime)
| GOther (c : cell).

Definition tab_char : ascii := ascii_of_nat 9.

(** [s.replace('\t', ' - ')] *)
Fixpoint replace_tab (s : string) : string :=
  match s with
  | EmptyString => EmptyString
  | String c s' =>
      if Ascii.eqb c tab_char then " - " ++ replace_tab s'
      else String c (replace_tab s')
  end.

(** [s.replace('{}', '')]: occurrences are removed from left to right and
    the text that results is not scanned again. *)
Fixpoint replace_braces (s : string) : string :=
  match s with
  | EmptyString => EmptyString
  | String c s1 =>
      match s1 with
      | String c' s2 =>
          if Ascii.eqb c "{"%char && Ascii.eqb c' "}"%char
          then replace_braces s2
          else String c (replace_braces s1)
      | EmptyString => String c EmptyString
      end
  end.

(** [s.replace('"', '\\"')] *)
Fixpoint escape_dquotes (s : string) : string :=
  match s with
  | EmptyString => EmptyString
  | String c s' =>
      if Ascii.eqb c dquote_char
      then String backslash (String c (escape_dquotes s'))
      else String c (escape_dquotes s')
  end.

(** [len(s)] *)
Definition py_len (s : string) : Z := Z.of_nat (String.length s).

(** [s[:n]] for a position [n] that is not negative. *)
Definition slice_to (n : Z) (s : string) : string :=
  substring 0 (Z.to_nat n) s.

Fixpoint drop_last (s : string) : string :=
  match s with
  | EmptyString => EmptyString
  | String c s' =>
      match s' with
      | EmptyString => EmptyString
      | String _ _ => String c (drop_last s')
      end
  end.

(** [s[1:-1]] *)
Definition slice_inner (s : string) : string :=
  match s with
  | EmptyString => EmptyString
  | String _ s' => drop_last s'
  end.

(** The two constants of the cell size rule. *)
Definition cell_limit : Z := 50000.
Definition cell_keep : Z := 48995.

(** [(s[:48995] + ' ... ') if len(s) > 50000 else otherwise] *)
Definition shorten (s otherwise : string) : string :=
  if (cell_limit <? py_len s)%Z then slice_to cell_keep s ++ " ... "
  else otherwise.

(** [str(tuple(xs))] *)
Definition str_tuple (xs : list scalar) : string :=
  "(" ++ String.concat ", " (map repr_scalar xs)
  ++ match xs with
     | [_] => ",)"
     | _ => ")"
     end.

(** [d.strftime("%d-%m-%Y")], the year again without padding. *)
Definition strftime_dmY (d : datetime) : string :=
  pad 2 (day d) ++ "-" ++ pad 2 (month d) ++ "-" ++ str_int (year d).

(** The text [list_value_str] made of an array value, for the array
    format asked for. *)
Definition list_value_str (array_format : string) (value : list scalar)
  : string :=
  let list_value_str :=
    if list_is_empty value then ""
    else replace_tab (str_value (VList value)) in
  if String.eqb array_format "curly" then
    replace_braces ("{" ++ slice_inner list_value_str ++ "}")
  else if String.eqb array_format "tuple" then
    if list_is_empty value then ""
    else replace_tab (str_tuple value)
  else list_value_str.

(** The value appended to [row_list] for one value of a fetched row. *)
Definition sheet_cell (array_format : string) (value : sheet_value)
  : sheet_value :=
  match value with
  | GStr value => GStr (shorten (replace_tab value) value)
  | GList value =>
      GStr (shorten (list_value_str array_format value)
                    (list_value_str array_format value))
  | GDatetime d => GStr (strftime_dmY d)
  | GOther c => GOther c
  end.

Section Exports.

Variable quote_identifier : string -> string -> string.
Variable quote_text_literal : string -> scalar -> result string.
Variable execute_query : string -> string -> result (list row * list string).

(** A cursor of [postgres_cursor_context]: [execute], then [fetchall] and
    the names of [description]. *)
Variable cursor_fetch :
  string -> string -> result (list (list sheet_value) * list string).

(** [csv.writer] on a [StringIO]: the header row, the rows, and the text
    written. *)
Variable csv_output : string -> list string -> list row -> result string.

Let compile := to_sql quote_identifier quote_text_literal.

(** [Query.run].  [to_sql] returns [None] only for an empty column list,
    which the first test has excluded. *)
Definition run (q : Query) (limit offset : option Z)
    (include_personal_data : bool) : result (list row) :=
  if list_is_empty (column_names q) then Ok []
  else
    sql <- compile q limit offset "." include_personal_data ;;
    match sql with
    | Some text => '(rows, _) <- execute_query (db_of q) text ;; Ok rows
    | None => Raise TypeError
    end.

(** [Query.as_csv]: [None.replace] is an attribute error. *)
Definition as_csv (q : Query) (delimiter decimal_mark : string)
    (include_personal_data : bool) : result string :=
  sql <- compile q None None decimal_mark include_personal_data ;;
  match sql with
  | Some text =>
      '(rows, names) <- execute_query (db_of q) (escape_dquotes text) ;;
      csv_output delimiter names rows
  | None => Raise AttributeError
  end.

(** [Query.as_rows_for_google_sheet]: the rows the generator yields. *)
Definition as_rows_for_google_sheet (q : Query) (array_format : string)
    (header : bool) (limit : option Z) (include_personal_data : bool)
  : result (list (list sheet_value)) :=
  if list_is_empty (column_names q) then Ok []
  else
    sql <- compile q limit None "." include_personal_data ;;
    match sql with
    | Some text =>
        '(fetched, description) <- cursor_fetch (db_of q) text ;;
        Ok ((if header then [map GStr description] else [])
            ++ map (map (sheet_cell array_format)) fetched)%list
    | None => Raise TypeError
    end.




End Exports.

(** ** A concrete setting for closed examples *)

Fixpoint double_char (c : ascii) (s : string) : string :=
  match s with
  | EmptyString => EmptyString
  | String c' s' =>
      if Ascii.eqb c c' then String c (String c (double_char c s'))
      else String c' (double_char c s')
  end.

(** Modelled from the spec: [quote_identifier] of the missing [sql] module,
    "wraps an identifier in the dialect's quoting syntax and escapes
    embedded quote characters"; here the PostgreSQL syntax. *)
Definition pg_quote_identifier (db name : string) : string :=
  String dquote_char (double_char dquote_char name ++ String dquote_char "").

(** Modelled from the spec: [quote_text_literal] of the missing [sql]
    module, which "does the same for string literals". *)
Definition pg_quote_text_literal (db : string) (v : scalar) : result string :=
  match v with
  | SStr s => Ok ("'" ++ double_char squote_char s ++ "'")
  | _ => Raise AttributeError
  end.

Definition orders : DataSet.t :=
  {| DataSet.id := "orders";
     DataSet.database_alias := "dwh";
     DataSet.database_schema := "public";
     DataSet.database_table := "orders";
     DataSet.columns :=
       [("customer", Column.mk "customer" "text");
        ("tags", Column.mk "tags" "text[]");
        ("amount", Column.mk "amount" "number");
        ("ordered_at", Column.mk "ordered_at" "date")];
     DataSet.default_column_names := ["customer"; "amount"; "legacy"];
     DataSet.personal_data_column_names := ["customer"] |}.

(** Modelled from the spec: [find_data_set] of the missing [data_set]
    module, which "fails with DataSetNotFound if the id is unknown". *)
Definition find_orders (id : string) : result DataSet.t :=
  if String.eqb id "orders" then Ok orders
  else Raise (Propagated "DataSetNotFound").

(** A stand-in for the Unicode normalisation in the closed examples, whose
    query ids are ASCII text. *)
Definition no_unicode (s : string) : string := s.

(** An executor double answering every statement with one count row. *)
Definition count_executor (db sql : string)
  : result (list row * list string) :=
  Ok ([[CNum (42 # 1)]], ["count"]).


(** Stand-ins for the library functions in the closed examples.  The
    logarithm stand-in gives the least integer [e] with [x <= 10^e], which
    is the ceiling the loop starts from; the numbers of the examples are
    small integers, which [float] represents exactly. *)
Definition sample_log10 (x : Q) : Q := inject_Z (ceil_log10 x).

Definition sample_float (x : Q) : pyfloat := Finite x.

Definition plain_float_str (f : pyfloat) : string :=
  match f with
  | Finite x => str_int (Qnum x) ++ "/" ++ str_int (Z.pos (Qden x))
  | Infinite true => "-inf"
  | Infinite false => "inf"
  end.




Definition injection : string := "x' OR '1'='1".

Definition orders_query (column_names : list string)
    (filters : list Filter.t) : Query :=
  {| data_set := orders;
     data_set_id := "orders";
     query_id := "";
     column_names := column_names;
     sort_column_name := None;
     sort_order := Some "ASC";
     filters := filters;
     created_at := None;
     created_by := None;
     updated_at := None;
     updated_by := None |}.

(** The six comparison operators of the allow-list. *)
Definition number_operators : list string :=
  ["="; "!="; "<"; "<="; ">"; ">="].

(** ** Vocabulary of the statements *)



(** [l'] keeps some elements of [l], in the order they have in [l]. *)
Inductive subsequence {A : Type} : list A -> list A -> Prop :=
| subsequence_nil : subsequence [] []
| subsequence_skip (x : A) (l' l : list A) :
    subsequence l' l -> subsequence l' (x :: l)
| subsequence_keep (x : A) (l' l : list A) :
    subsequence l' l -> subsequence (x :: l') (x :: l).

(** [name] is a column of the schema of [ds]. *)
Definition schema_column (ds : DataSet.t) (name : string) : Prop :=
  In name (dict_keys (DataSet.columns ds)).

(** Following the spec: [min_ = floor(min / 10^exponent)] and
    [max_ = ceil(max / 10^exponent)], read over the rationals. *)
Definition spec_floor (x : Q) (exponent : Z) : Z :=
  Qfloor (x / pow10 exponent)%Q.

Definition spec_ceil (x : Q) (exponent : Z) : Z :=
  Qceiling (x / pow10 exponent)%Q.

(** Following the spec: "If [(max_ - min_) > min_buckets], stop";
    "Otherwise decrement the exponent and retry". *)
Definition spec_enough_buckets (min_value max_value : Q) (exponent : Z)
  : bool :=
  (min_buckets <? spec_ceil max_value exponent
                  - spec_floor min_value exponent)%Z.

Fixpoint spec_find_buckets (fuel : nat) (min_value max_value : Q)
    (exponent : Z) : option (Z * Z * Z) :=
  match fuel with
  | O => None
  | S fuel' =>
      let min_ := spec_floor min_value exponent in
      let max_ := spec_ceil max_value exponent in
      if (min_buckets <? max_ - min_)%Z then Some (exponent, min_, max_)
      else spec_find_buckets fuel' min_value max_value (exponent + -1)
  end.




(** [x] is the decimal with coefficient [c] and exponent [e]. *)
Definition decimal_of (c e : Z) (x : Q) : Prop :=
  (x == inject_Z c * pow10 e)%Q.

(** The conditions under which every operation of the loop is exact:
    minimum and maximum are decimals of at most [prec] digits with the
    common exponent [p], and the exponents the loop visits, from [e0] down
    to [p - 1], as well as the exponents of the quotients, lie in the
    range of the context. *)
Definition exact_run (min_value max_value : Q) (a b p e0 : Z) : Prop :=
  decimal_of a p min_value /\ decimal_of b p max_value
  /\ (a < b)%Z /\ (Z.abs a < 10 ^ prec)%Z /\ (Z.abs b < 10 ^ prec)%Z
  /\ (Etiny < p)%Z /\ (p - 1 <= e0)%Z /\ (e0 <= Emax)%Z
  /\ (Etiny + e0 <= p)%Z.


(** Every character of [s] satisfies [p]. *)
Fixpoint string_forall (p : ascii -> bool) (s : string) : bool :=
  match s with
  | EmptyString => true
  | String c s' => p c && string_forall p s'
  end.

Definition is_dash (c : ascii) : bool := Ascii.eqb c "-"%char.

(** The characters of a normalised query id: lower-case letters, digits,
    the underscore and the dash. *)
Definition id_char (c : ascii) : bool :=
  (is_word c && negb (in_range 65 90 c)) || is_dash c.

Definition starts_with_dash (s : string) : bool :=
  match s with
  | EmptyString => false
  | String c _ => is_dash c
  end.

(** No two dashes follow each other in [s]. *)
Fixpoint no_double_dash (s : string) : bool :=
  match s with
  | EmptyString => true
  | String c s' => negb (is_dash c && starts_with_dash s') && no_double_dash s'
  end.

(** The column type is one whose predicate needs no value list. *)
Definition plain_type (type : string) : bool :=
  negb (String.eqb type "text") && negb (String.eqb type "text[]").

(** The type of a schema column, if the column exists. *)
Definition column_type (ds : DataSet.t) (name : string) : option string :=
  option_map Column.type (dict_get (DataSet.columns ds) name).

(** * Properties *)

(** ** The bucketing loop *)

(** *** Powers of ten *)

Lemma pow10_pos (e : Z) : (0 < pow10 e)%Q.
Proof. unfold pow10. apply Qpower_0_lt. reflexivity. Qed.

Lemma pow10_nonpositive (k : Z) :
  (0 <= k)%Z -> (pow10 (- k) == / inject_Z (10 ^ k))%Q.
Proof.
  intros Hk. unfold pow10. rewrite Qpower_opp.
  rewrite (Zpower_Qpower 10 k Hk). reflexivity.
Qed.

(** Powers of ten get below every positive bound. *)
Lemma pow10_small (eps : Q) :
  (0 < eps)%Q -> exists E : Z, forall e, (e <= E)%Z -> (pow10 e < eps)%Q.
Proof.
  intros Heps. destruct eps as [a b].
  assert (Ha : (0 < a)%Z).
  { unfold Qlt in Heps. simpl in Heps. lia. }
  exists (- Z.pos b)%Z. intros e He.
  replace e with (- (- e))%Z by lia.
  rewrite pow10_nonpositive by lia.
  assert (Hpow : (Z.pos b < 10 ^ (- e))%Z).
  { pose proof (Z.pow_gt_lin_r 10 (- e)). lia. }
  assert (Hp : (0 < 10 ^ (- e))%Z) by lia.
  destruct (10 ^ (- e))%Z as [|p|p] eqn:E10; try lia.
  unfold Qlt, Qinv, inject_Z. simpl.
  nia.
Qed.

(** The gap between the scaled ceiling and the scaled floor is at least
    the scaled distance. *)
Lemma scaled_gap (lo hi : Q) (e : Z) :
  ((hi - lo) / pow10 e <=
   inject_Z (spec_ceil hi e - spec_floor lo e))%Q.
Proof.
  unfold spec_ceil, spec_floor.
  pose proof (Qle_ceiling (hi / pow10 e)) as Hc.
  pose proof (Qfloor_le (lo / pow10 e)) as Hf.
  pose proof (pow10_pos e) as Hp.
  unfold Z.sub. rewrite inject_Z_plus, inject_Z_opp.
  assert (Heq : ((hi - lo) / pow10 e == hi / pow10 e - lo / pow10 e)%Q).
  { field. intro H0. rewrite H0 in Hp. discriminate. }
  rewrite Heq. lra.
Qed.

Lemma spec_enough_buckets_eventually (lo hi : Q) :
  (lo < hi)%Q ->
  exists E : Z, forall e, (e <= E)%Z -> spec_enough_buckets lo hi e = true.
Proof.
  intros Hlt.
  destruct (pow10_small ((hi - lo) / 6)) as [E HE].
  { apply Qlt_shift_div_l; lra. }
  exists E. intros e He. specialize (HE e He).
  unfold spec_enough_buckets, min_buckets. apply Z.ltb_lt.
  pose proof (scaled_gap lo hi e) as Hgap.
  pose proof (pow10_pos e) as Hp.
  assert (H6 : (6 <= (hi - lo) / pow10 e)%Q).
  { apply Qle_shift_div_l; [exact Hp|].
    apply Qlt_le_weak.
    assert (Hd : ((hi - lo) / 6 * 6 == hi - lo)%Q) by field.
    rewrite <- Hd. 
    setoid_replace (6 * pow10 e)%Q with (pow10 e * 6)%Q by ring.
    apply Qmult_lt_compat_r; [reflexivity | exact HE]. }
  assert (Hz : (6 <= inject_Z (spec_ceil hi e - spec_floor lo e))%Q) by lra.
  change 6%Q with (inject_Z 6) in Hz. rewrite <- Zle_Qle in Hz. lia.
Qed.

(** *** The position of the leading digit *)

Lemma log10_up_spec (fuel : nat) :
  forall n d k,
    (0 < d)%Z -> (0 <= k)%Z ->
    (n <= d * 10 ^ (k + Z.of_nat fuel - 1))%Z ->
    (forall j, (0 <= j < k)%Z -> (d * 10 ^ j < n)%Z) ->
    let r := log10_up fuel n d k in
    (k <= r)%Z /\ (n <= d * 10 ^ r)%Z
    /\ (forall j, (0 <= j < r)%Z -> (d * 10 ^ j < n)%Z).
Proof.
  induction fuel as [|fuel IH]; intros n d k Hd Hk Hfuel Hbelow; simpl.
  - replace (k + Z.of_nat 0 - 1)%Z with (k - 1)%Z in Hfuel by lia.
    destruct (Z.eq_dec k 0) as [->|Hk0].
    + simpl in *. repeat split; lia.
    + specialize (Hbelow (k - 1)%Z). lia.
  - destruct (n <=? d * 10 ^ k)%Z eqn:T.
    + apply Z.leb_le in T. repeat split; try lia. exact Hbelow.
    + apply Z.leb_gt in T.
      destruct (IH n d (k + 1)%Z Hd) as (H1 & H2 & H3); try lia.
      * replace (k + 1 + Z.of_nat fuel - 1)%Z
          with (k + Z.of_nat (S fuel) - 1)%Z by lia. exact Hfuel.
      * intros j Hj. destruct (Z.eq_dec j k) as [->|]; [exact T|].
        apply Hbelow. lia.
      * repeat split; try lia. exact H3.
Qed.

Lemma log10_down_spec (fuel : nat) :
  forall n d k,
    (0 < n)%Z -> (0 <= k)%Z ->
    (d < n * 10 ^ (k + Z.of_nat fuel))%Z ->
    (n * 10 ^ k <= d)%Z ->
    let r := log10_down fuel n d k in
    (k <= r)%Z /\ (n * 10 ^ r <= d)%Z /\ (d < n * 10 ^ (r + 1))%Z.
Proof.
  induction fuel as [|fuel IH]; intros n d k Hn Hk Hfuel Hle; simpl.
  - replace (k + Z.of_nat 0)%Z with k in Hfuel by lia. lia.
  - destruct (n * 10 ^ (k + 1) <=? d)%Z eqn:T.
    + apply Z.leb_le in T.
      assert (Hfuel' : (d < n * 10 ^ (k + 1 + Z.of_nat fuel))%Z).
      { replace (k + 1 + Z.of_nat fuel)%Z
          with (k + Z.of_nat (S fuel))%Z by lia. exact Hfuel. }
      assert (Hk' : (0 <= k + 1)%Z) by lia.
      destruct (IH n d (k + 1)%Z Hn Hk' Hfuel' T) as (H1 & H2 & H3).
      repeat split; try assumption; lia.
    + apply Z.leb_gt in T. repeat split; try lia.
Qed.

Lemma pow10_nonnegative (k : Z) :
  (0 <= k)%Z -> (pow10 k == inject_Z (10 ^ k))%Q.
Proof.
  intros Hk. unfold pow10. change (10 # 1) with (inject_Z 10).
  rewrite Zpower_Qpower by exact Hk. reflexivity.
Qed.

Lemma pow10_upper (n : Z) (d : positive) (r : Z) :
  (0 <= r)%Z -> (n <= Z.pos d * 10 ^ r)%Z -> (n # d <= pow10 r)%Q.
Proof.
  intros Hr H. rewrite pow10_nonnegative by exact Hr.
  unfold Qle, inject_Z. simpl. lia.
Qed.

Lemma pow10_lower (n : Z) (d : positive) (r : Z) :
  (0 <= r)%Z -> (Z.pos d * 10 ^ r < n)%Z -> (pow10 r < n # d)%Q.
Proof.
  intros Hr H. rewrite pow10_nonnegative by exact Hr.
  unfold Qlt, inject_Z. simpl. lia.
Qed.

Lemma pow10_neg_upper (n : Z) (d : positive) (r : Z) :
  (0 <= r)%Z -> (n * 10 ^ r <= Z.pos d)%Z -> (n # d <= pow10 (- r))%Q.
Proof.
  intros Hr H. rewrite pow10_nonpositive by exact Hr.
  assert (Hp : (0 < 10 ^ r)%Z) by (apply Z.pow_pos_nonneg; lia).
  destruct (10 ^ r)%Z as [|p|p]; try lia.
  unfold Qle, Qinv, inject_Z. simpl. lia.
Qed.

Lemma pow10_neg_lower (n : Z) (d : positive) (r : Z) :
  (0 <= r)%Z -> (Z.pos d < n * 10 ^ r)%Z -> (pow10 (- r) < n # d)%Q.
Proof.
  intros Hr H. rewrite pow10_nonpositive by exact Hr.
  assert (Hp : (0 < 10 ^ r)%Z) by (apply Z.pow_pos_nonneg; lia).
  destruct (10 ^ r)%Z as [|p|p]; try lia.
  unfold Qlt, Qinv, inject_Z. simpl. lia.
Qed.

Lemma pow_2_le_10 (m : Z) : (0 <= m)%Z -> (2 ^ m <= 10 ^ m)%Z.
Proof. intros Hm. apply Z.pow_le_mono_l. lia. Qed.

(** [ceil_log10 x] is the least exponent whose power of ten reaches [x]:
    it is the ceiling of the decimal logarithm of [x]. *)
Lemma ceil_log10_spec (x : Q) :
  (0 < x)%Q ->
  (pow10 (ceil_log10 x - 1) < x)%Q /\ (x <= pow10 (ceil_log10 x))%Q.
Proof.
  destruct x as [n d]. intros Hx.
  assert (Hn : (0 < n)%Z).
  { unfold Qlt in Hx. simpl in Hx. lia. }
  unfold ceil_log10. cbn [Qnum Qden].
  destruct (n <=? Z.pos d)%Z eqn:T.
  - apply Z.leb_le in T.
    pose proof (Z.log2_nonneg (Z.pos d)) as Hlog.
    destruct (Z.log2_spec (Z.pos d)) as [_ Hlt]; [lia|].
    pose proof (pow_2_le_10 (Z.succ (Z.log2 (Z.pos d)))) as Hpow.
    destruct (log10_down_spec (S (Z.to_nat (Z.log2 (Z.pos d)))) n (Z.pos d) 0)
      as (Hr & Hle & Hgt); try lia.
    + replace (0 + Z.of_nat (S (Z.to_nat (Z.log2 (Z.pos d)))))%Z
        with (Z.succ (Z.log2 (Z.pos d))) by lia.
      nia.
    + set (r := log10_down (S (Z.to_nat (Z.log2 (Z.pos d)))) n (Z.pos d) 0)
        in *.
      split.
      * replace (- r - 1)%Z with (- (r + 1))%Z by lia.
        apply pow10_neg_lower; lia.
      * apply pow10_neg_upper; lia.
  - apply Z.leb_gt in T.
    assert (Hlog : (1 <= Z.log2 n)%Z).
    { destruct (Z.log2_spec n Hn) as [_ Hlt].
      destruct (Z.eq_dec (Z.log2 n) 0) as [E|E].
      - rewrite E in Hlt. simpl in Hlt. lia.
      - pose proof (Z.log2_nonneg n). lia. }
    destruct (Z.log2_spec n Hn) as [_ Hlt].
    assert (Hpow : (2 * 2 ^ Z.log2 n <= 10 ^ Z.log2 n)%Z).
    { replace (Z.log2 n) with (Z.succ (Z.log2 n - 1)) by lia.
      rewrite !Z.pow_succ_r by lia.
      pose proof (pow_2_le_10 (Z.log2 n - 1)). lia. }
    rewrite Z.pow_succ_r in Hlt by lia.
    destruct (log10_up_spec (S (Z.to_nat (Z.log2 n))) n (Z.pos d) 0)
      as (Hr & Hle & Hbelow); try lia.
    + replace (0 + Z.of_nat (S (Z.to_nat (Z.log2 n))) - 1)%Z
        with (Z.log2 n) by lia.
      nia.
    + set (r := log10_up (S (Z.to_nat (Z.log2 n))) n (Z.pos d) 0) in *.
      assert (Hr1 : (1 <= r)%Z).
      { destruct (Z.eq_dec r 0) as [E|E]; [|lia].
        rewrite E in Hle. simpl in Hle. lia. }
      split.
      * apply pow10_lower; [lia|]. apply Hbelow. lia.
      * apply pow10_upper; lia.
Qed.

(** *** The loop over the rationals *)

Lemma spec_find_buckets_sound (fuel : nat) :
  forall lo hi e0 e mn mx,
    spec_find_buckets fuel lo hi e0 = Some (e, mn, mx) ->
    (e <= e0)%Z /\ mn = spec_floor lo e /\ mx = spec_ceil hi e
    /\ (min_buckets < mx - mn)%Z
    /\ (forall e', (e < e' <= e0)%Z -> spec_enough_buckets lo hi e' = false).
Proof.
  induction fuel as [|fuel IH]; intros lo hi e0 e mn mx H; simpl in H.
  - discriminate.
  - destruct (min_buckets <? spec_ceil hi e0 - spec_floor lo e0)%Z eqn:T.
    + inversion H; subst. apply Z.ltb_lt in T.
      repeat split; lia.
    + apply IH in H. destruct H as (Hle & Hmn & Hmx & Hgt & Hfirst).
      repeat split; try assumption; try lia.
      intros e' He'. destruct (Z.eq_dec e' e0) as [->|Hne].
      * exact T.
      * apply Hfirst. lia.
Qed.

Lemma spec_find_buckets_complete (fuel : nat) :
  forall lo hi e0 e,
    spec_enough_buckets lo hi e = true -> (e <= e0)%Z ->
    (Z.to_nat (e0 - e) < fuel)%nat ->
    exists r, spec_find_buckets fuel lo hi e0 = Some r.
Proof.
  induction fuel as [|fuel IH]; intros lo hi e0 e He Hle Hfuel.
  - lia.
  - simpl.
    destruct (min_buckets <? spec_ceil hi e0 - spec_floor lo e0)%Z eqn:T.
    + eexists. reflexivity.
    + apply (IH lo hi (e0 + -1)%Z e He).
      * destruct (Z.eq_dec e e0) as [->|Hne]; [|lia].
        unfold spec_enough_buckets in He. congruence.
      * destruct (Z.eq_dec e e0) as [->|Hne]; [|lia].
        unfold spec_enough_buckets in He. congruence.
Qed.

Lemma spec_find_buckets_more_fuel (fuel : nat) :
  forall fuel' lo hi e0 r,
    spec_find_buckets fuel lo hi e0 = Some r -> (fuel <= fuel')%nat ->
    spec_find_buckets fuel' lo hi e0 = Some r.
Proof.
  induction fuel as [|fuel IH]; intros fuel' lo hi e0 r H Hle; simpl in H.
  - discriminate.
  - destruct fuel' as [|fuel']; [lia|]. simpl.
    destruct (min_buckets <? spec_ceil hi e0 - spec_floor lo e0)%Z.
    + exact H.
    + apply IH; [exact H | lia].
Qed.

(** From every starting exponent the loop stops, at the first exponent
    below the start that yields more than [min_buckets] buckets. *)
Lemma spec_find_buckets_terminates (lo hi : Q) (e0 : Z) :
  (lo < hi)%Q ->
  exists fuel e,
    (forall fuel', (fuel <= fuel')%nat ->
       spec_find_buckets fuel' lo hi e0
       = Some (e, spec_floor lo e, spec_ceil hi e))
    /\ (e <= e0)%Z
    /\ fuel = S (Z.to_nat (e0 - e))
    /\ (min_buckets < spec_ceil hi e - spec_floor lo e)%Z
    /\ (forall e', (e < e' <= e0)%Z -> spec_enough_buckets lo hi e' = false).
Proof.
  intros Hlt.
  destruct (spec_enough_buckets_eventually lo hi Hlt) as [E HE].
  set (e1 := Z.min E e0).
  assert (He1 : spec_enough_buckets lo hi e1 = true) by (apply HE; lia).
  destruct (spec_find_buckets_complete (S (Z.to_nat (e0 - e1))) lo hi e0 e1 He1)
    as [[[e mn] mx] Hr]; try lia.
  destruct (spec_find_buckets_sound _ _ _ _ _ _ _ Hr) as (Hle & Hmn & Hmx & Hgt & Hfirst).
  subst mn mx.
  assert (Hfuel : spec_find_buckets (S (Z.to_nat (e0 - e))) lo hi e0
                  = Some (e, spec_floor lo e, spec_ceil hi e)).
  { assert (Hen : spec_enough_buckets lo hi e = true).
    { unfold spec_enough_buckets. apply Z.ltb_lt. exact Hgt. }
    destruct (spec_find_buckets_complete (S (Z.to_nat (e0 - e))) lo hi e0 e Hen)
      as [r Hr']; try lia.
    rewrite Hr'. f_equal.
    apply (spec_find_buckets_more_fuel _ (S (Z.to_nat (e0 - e1)))) in Hr'.
    - congruence.
    - assert (e1 <= e)%Z; [|lia].
      destruct (Z.le_gt_cases e1 e) as [|Hgt1]; [assumption|].
      rewrite Hfirst in He1; [discriminate|lia]. }
  exists (S (Z.to_nat (e0 - e))), e. repeat split; try assumption.
  intros fuel' Hle'. exact (spec_find_buckets_more_fuel _ _ _ _ _ _ Hfuel Hle').
Qed.


Lemma py_index_head {A : Type} (x : A) (xs : list A) :
  py_index (x :: xs) 0 = Ok x.
Proof. reflexivity. Qed.

Lemma inject_Z_plus_eq (a b : Z) :
  (inject_Z a + inject_Z b)%Q = inject_Z (a + b).
Proof.
  unfold Qplus, inject_Z. simpl. f_equal. lia.
Qed.







Lemma pow10_succ (e : Z) : (pow10 (e + 1) == 10 * pow10 e)%Q.
Proof.
  unfold pow10. rewrite Qpower_plus by discriminate.
  rewrite Qmult_comm. reflexivity.
Qed.


(** *** Decimal rounding *)

Lemma pow10_plus (a b : Z) : (pow10 (a + b) == pow10 a * pow10 b)%Q.
Proof. unfold pow10. apply Qpower_plus. discriminate. Qed.

Lemma pow10_opp (a : Z) : (pow10 (- a) == / pow10 a)%Q.
Proof. unfold pow10. apply Qpower_opp. Qed.

Lemma pow10_lt_mono (e e' : Z) : (e < e')%Z -> (pow10 e < pow10 e')%Q.
Proof.
  intros H. unfold pow10. apply Qpower_lt_compat_l; [exact H|reflexivity].
Qed.

Lemma pow10_lt_inv (e e' : Z) : (pow10 e < pow10 e')%Q -> (e < e')%Z.
Proof.
  intros H. unfold pow10 in H.
  apply (Qpower_lt_compat_l_inv (10 # 1)); [exact H|reflexivity].
Qed.

Lemma pow10_nonzero (e : Z) : ~ (pow10 e == 0)%Q.
Proof.
  intros H. pose proof (pow10_pos e) as Hp. rewrite H in Hp. discriminate.
Qed.

Lemma pow10_minus (a b : Z) : (pow10 (a - b) == pow10 a / pow10 b)%Q.
Proof.
  unfold Z.sub. rewrite pow10_plus, pow10_opp. reflexivity.
Qed.

Lemma is_zero_false (x : Q) : is_zero x = false <-> ~ (x == 0)%Q.
Proof.
  unfold is_zero. split.
  - apply Qeq_bool_neq.
  - intros H. destruct (Qeq_bool x 0) eqn:E; [|reflexivity].
    apply Qeq_bool_iff in E. contradiction.
Qed.

Lemma is_zero_true (x : Q) : is_zero x = true <-> (x == 0)%Q.
Proof. unfold is_zero. apply Qeq_bool_iff. Qed.

Lemma Qabs_pos_nonzero (x : Q) : ~ (x == 0)%Q -> (0 < Qabs x)%Q.
Proof.
  intros H. destruct x as [n d]. unfold Qeq in H. simpl in H.
  unfold Qlt. simpl. lia.
Qed.

(** The adjusted exponent brackets the absolute value. *)
Lemma adjusted_spec (x : Q) :
  ~ (x == 0)%Q ->
  (pow10 (adjusted x) <= Qabs x)%Q /\ (Qabs x < pow10 (adjusted x + 1))%Q.
Proof.
  intros Hx. pose proof (Qabs_pos_nonzero x Hx) as Hpos.
  destruct (ceil_log10_spec (Qabs x) Hpos) as [Hlow Hup].
  unfold adjusted.
  destruct (Qeq_bool (Qabs x) (pow10 (ceil_log10 (Qabs x)))) eqn:E.
  - apply Qeq_bool_iff in E. split.
    + rewrite <- E. apply Qle_refl.
    + rewrite E at 1. apply pow10_lt_mono. lia.
  - apply Qeq_bool_neq in E. split.
    + apply Qlt_le_weak. exact Hlow.
    + replace (ceil_log10 (Qabs x) - 1 + 1)%Z with (ceil_log10 (Qabs x))
        by lia.
      apply Qle_lteq in Hup. destruct Hup as [Hlt|Heq];
        [exact Hlt | contradiction].
Qed.

Lemma adjusted_unique (x : Q) (a : Z) :
  (pow10 a <= Qabs x)%Q -> (Qabs x < pow10 (a + 1))%Q -> adjusted x = a.
Proof.
  intros Hlow Hup.
  assert (Hx : ~ (x == 0)%Q).
  { intros H0. rewrite H0 in Hlow. pose proof (pow10_pos a) as Hp.
    change (Qabs 0) with 0%Q in Hlow. lra. }
  destruct (adjusted_spec x Hx) as [Hl Hu].
  assert (H1 : (pow10 a < pow10 (adjusted x + 1))%Q) by lra.
  assert (H2 : (pow10 (adjusted x) < pow10 (a + 1))%Q) by lra.
  apply pow10_lt_inv in H1. apply pow10_lt_inv in H2. lia.
Qed.

Lemma adjusted_comp (x y : Q) :
  (x == y)%Q -> ~ (x == 0)%Q -> adjusted y = adjusted x.
Proof.
  intros Heq Hx. destruct (adjusted_spec x Hx) as [Hl Hu].
  apply adjusted_unique; rewrite <- Heq; assumption.
Qed.

Lemma Qfloor_unique (x : Q) (c : Z) :
  (inject_Z c <= x)%Q -> (x < inject_Z (c + 1))%Q -> Qfloor x = c.
Proof.
  intros Hl Hu.
  pose proof (Qfloor_le x) as H1. pose proof (Qlt_floor x) as H2.
  assert (Ha : (inject_Z (Qfloor x) < inject_Z (c + 1))%Q) by lra.
  assert (Hb : (inject_Z c < inject_Z (Qfloor x + 1))%Q) by lra.
  rewrite <- Zlt_Qlt in Ha, Hb. lia.
Qed.

(** A number less than half above an integer is rounded to it. *)
Lemma round_half_even_near (x r : Q) (c : Z) :
  (x == inject_Z c + r)%Q -> (0 <= r)%Q -> (r < 1 # 2)%Q ->
  round_half_even x = c.
Proof.
  intros Hx H0 Hr. unfold round_half_even.
  assert (Hf : Qfloor x = c).
  { apply Qfloor_unique.
    - rewrite Hx. lra.
    - rewrite Hx, inject_Z_plus. change (inject_Z 1) with 1%Q. lra. }
  rewrite Hf.
  assert (Hlt : (x - inject_Z c < 1 # 2)%Q) by (rewrite Hx; lra).
  destruct (x - inject_Z c ?= 1 # 2)%Q eqn:E.
  - apply Qeq_alt in E. rewrite E in Hlt. discriminate.
  - reflexivity.
  - apply Qgt_alt in E. lra.
Qed.

Lemma round_half_even_Z (x : Q) (c : Z) :
  (x == inject_Z c)%Q -> round_half_even x = c.
Proof.
  intros Hx. apply (round_half_even_near x 0 c).
  - rewrite Hx. ring.
  - apply Qle_refl.
  - reflexivity.
Qed.

(** The rounding, once the quantum and the rounded coefficient are
    known. *)
Lemma context_round_at (x : Q) (t c : Z) :
  ~ (x == 0)%Q ->
  Z.max (adjusted x - (prec - 1)) Etiny = t ->
  round_half_even (x / pow10 t) = c ->
  c <> 0%Z ->
  context_round x
  = if (Emax <? adjusted (inject_Z c * pow10 t))%Z then Raise Overflow
    else Ok (Qred (inject_Z c * pow10 t)).
Proof.
  intros Hx Ht Hc Hc0. unfold context_round.
  apply is_zero_false in Hx. rewrite Hx. cbv zeta. rewrite Ht, Hc.
  assert (Hy : is_zero (inject_Z c * pow10 t) = false).
  { apply is_zero_false. intros H0.
    apply Qmult_integral in H0. destruct H0 as [H0|H0].
    - apply Hc0. unfold Qeq, inject_Z in H0. simpl in H0. lia.
    - exact (pow10_nonzero t H0). }
  rewrite Hy. reflexivity.
Qed.

Lemma inject_Z_abs (c : Z) : (Qabs (inject_Z c) == inject_Z (Z.abs c))%Q.
Proof. unfold inject_Z. rewrite <- Zabs_Qabs. reflexivity. Qed.

Lemma Qabs_scaled (c t : Z) :
  (Qabs (inject_Z c * pow10 t) == inject_Z (Z.abs c) * pow10 t)%Q.
Proof.
  rewrite Qabs_Qmult, inject_Z_abs.
  rewrite (Qabs_pos (pow10 t)); [reflexivity|].
  apply Qlt_le_weak, pow10_pos.
Qed.

(** Bounds on a decimal from the size of its coefficient. *)
Lemma scaled_lower (c t j : Z) :
  (0 <= j)%Z -> (10 ^ j <= Z.abs c)%Z ->
  (pow10 (t + j) <= Qabs (inject_Z c * pow10 t))%Q.
Proof.
  intros Hj Hc. rewrite Qabs_scaled, pow10_plus.
  rewrite (pow10_nonnegative j Hj).
  setoid_replace (pow10 t * inject_Z (10 ^ j))%Q
    with (inject_Z (10 ^ j) * pow10 t)%Q by ring.
  apply Qmult_le_compat_r.
  - rewrite <- Zle_Qle. exact Hc.
  - apply Qlt_le_weak, pow10_pos.
Qed.

Lemma scaled_upper (c t j : Z) :
  (0 <= j)%Z -> (Z.abs c < 10 ^ j)%Z ->
  (Qabs (inject_Z c * pow10 t) < pow10 (t + j))%Q.
Proof.
  intros Hj Hc. rewrite Qabs_scaled, pow10_plus.
  rewrite (pow10_nonnegative j Hj).
  setoid_replace (pow10 t * inject_Z (10 ^ j))%Q
    with (inject_Z (10 ^ j) * pow10 t)%Q by ring.
  apply Qmult_lt_compat_r.
  - apply pow10_pos.
  - rewrite <- Zlt_Qlt. exact Hc.
Qed.

(** A decimal of at most [prec] digits whose exponent is in range is left
    as it is by the rounding. *)
Lemma context_round_exact (x : Q) (c k : Z) :
  (x == inject_Z c * pow10 k)%Q ->
  (Z.abs c < 10 ^ prec)%Z -> (Etiny <= k)%Z -> (k + prec - 1 <= Emax)%Z ->
  context_round x = Ok (Qred x).
Proof.
  intros Hx Hc Hk Hmax.
  destruct (Z.eq_dec c 0) as [->|Hc0].
  - assert (H0 : (x == 0)%Q) by (rewrite Hx; ring).
    unfold context_round. apply is_zero_true in H0 as Hz. rewrite Hz.
    f_equal. symmetry. change 0%Q with (Qred 0). apply Qred_complete.
    exact H0.
  - assert (Hxn : ~ (x == 0)%Q).
    { rewrite Hx. intros H0. apply Qmult_integral in H0.
      destruct H0 as [H0|H0].
      - apply Hc0. unfold Qeq, inject_Z in H0. simpl in H0. lia.
      - exact (pow10_nonzero k H0). }
    destruct (adjusted_spec x Hxn) as [Hl Hu].
    assert (Hlow : (pow10 (k + 0) <= Qabs x)%Q).
    { rewrite Hx. apply scaled_lower; [lia|]. simpl. lia. }
    assert (Hup : (Qabs x < pow10 (k + prec))%Q).
    { rewrite Hx. apply scaled_upper; [unfold prec; lia | exact Hc]. }
    assert (Ha1 : (k < adjusted x + 1)%Z).
    { apply pow10_lt_inv. replace k with (k + 0)%Z at 1 by lia. lra. }
    assert (Ha2 : (adjusted x < k + prec)%Z).
    { apply pow10_lt_inv. lra. }
    set (t := Z.max (adjusted x - (prec - 1)) Etiny).
    assert (Ht : (t <= k)%Z) by (unfold t; lia).
    assert (Hq : (x / pow10 t == inject_Z (c * 10 ^ (k - t)))%Q).
    { rewrite Hx, inject_Z_mult.
      rewrite <- (pow10_nonnegative (k - t)) by lia.
      rewrite pow10_minus. field. apply pow10_nonzero. }
    assert (Hy : (inject_Z (c * 10 ^ (k - t)) * pow10 t == x)%Q).
    { rewrite <- Hq. field. apply pow10_nonzero. }
    rewrite (context_round_at x t (c * 10 ^ (k - t))).
    + rewrite (adjusted_comp x _ (Qeq_sym _ _ Hy) Hxn).
      assert (Hno : (Emax <? adjusted x)%Z = false).
      { apply Z.ltb_ge. lia. }
      rewrite Hno. f_equal. apply Qred_complete. exact Hy.
    + exact Hxn.
    + reflexivity.
    + apply round_half_even_Z. exact Hq.
    + assert (0 < 10 ^ (k - t))%Z by (apply Z.pow_pos_nonneg; lia). nia.
Qed.

(** *** The loop on short decimals *)

Lemma decimal_pow10_in_range (e : Z) :
  (Etiny <= e <= Emax)%Z -> decimal_pow10 e = Ok (pow10 e).
Proof.
  intros [Hl Hu]. unfold decimal_pow10.
  assert (H1 : (Emax <? e)%Z = false) by (apply Z.ltb_ge; lia).
  assert (H2 : (e <? Etiny)%Z = false) by (apply Z.ltb_ge; lia).
  rewrite H1, H2. reflexivity.
Qed.

Lemma decimal_div_pow10_exact (x : Q) (c p e : Z) :
  decimal_of c p x -> (Z.abs c < 10 ^ prec)%Z ->
  (Etiny <= p - e)%Z -> (p - e + prec - 1 <= Emax)%Z ->
  decimal_div x (pow10 e) = Ok (Qred (x / pow10 e)).
Proof.
  intros Hx Hc Hl Hu. unfold decimal_div.
  assert (Hz : is_zero (pow10 e) = false).
  { apply is_zero_false. apply pow10_nonzero. }
  rewrite Hz. apply (context_round_exact _ c (p - e)); try assumption.
  unfold decimal_of in Hx. rewrite Hx, pow10_minus. field.
  apply pow10_nonzero.
Qed.

(** On a decimal of at most [prec] digits the scaled floor and ceiling
    of the code are the exact ones, as long as the exponents stay in
    range. *)
Lemma scaled_exact (x : Q) (c p e : Z) :
  decimal_of c p x -> (Z.abs c < 10 ^ prec)%Z ->
  (Etiny <= e <= Emax)%Z ->
  (Etiny <= p - e)%Z -> (p - e + prec - 1 <= Emax)%Z ->
  scaled_floor x e = Ok (spec_floor x e)
  /\ scaled_ceil x e = Ok (spec_ceil x e).
Proof.
  intros Hx Hc He Hl Hu. unfold scaled_floor, scaled_ceil.
  rewrite (decimal_pow10_in_range e He). cbn [bind].
  rewrite (decimal_div_pow10_exact x c p e Hx Hc Hl Hu). cbn [bind].
  unfold spec_floor, spec_ceil.
  split; f_equal.
  - apply Qfloor_comp. apply Qred_correct.
  - apply Qceiling_comp. apply Qred_correct.
Qed.

Lemma spec_one_below (x : Q) (c p : Z) :
  decimal_of c p x ->
  spec_floor x (p - 1) = (10 * c)%Z /\ spec_ceil x (p - 1) = (10 * c)%Z.
Proof.
  intros Hx. unfold decimal_of in Hx.
  assert (Hq : (x / pow10 (p - 1) == inject_Z (10 * c))%Q).
  { rewrite Hx, pow10_minus, inject_Z_mult.
    change (pow10 1) with (10 # 1). change (inject_Z 10) with (10 # 1).
    field. apply pow10_nonzero. }
  unfold spec_floor, spec_ceil. split.
  - rewrite (Qfloor_comp _ _ Hq). apply Qfloor_Z.
  - rewrite (Qceiling_comp _ _ Hq). apply Qceiling_Z.
Qed.

Lemma decimal_of_lt (lo hi : Q) (a b p : Z) :
  decimal_of a p lo -> decimal_of b p hi -> (a < b)%Z -> (lo < hi)%Q.
Proof.
  intros Hlo Hhi Hab. unfold decimal_of in *. rewrite Hlo, Hhi.
  apply Qmult_lt_compat_r; [apply pow10_pos|].
  rewrite <- Zlt_Qlt. exact Hab.
Qed.

Lemma find_buckets_exact (fuel : nat) :
  forall (lo hi : Q) (a b p e0 : Z),
    exact_run lo hi a b p e0 ->
    find_buckets fuel lo hi e0
    = option_map Ok (spec_find_buckets fuel lo hi e0).
Proof.
  induction fuel as [|fuel IH]; intros lo hi a b p e0 H; [reflexivity|].
  destruct H as (Hlo & Hhi & Hab & Ha & Hb & Hp & He0 & Hmax & Htiny).
  assert (Hprec : prec = 28%Z) by reflexivity.
  assert (HEmax : Emax = 999999%Z) by reflexivity.
  assert (HEtiny : Etiny = (-1000026)%Z) by reflexivity.
  destruct (scaled_exact lo a p e0 Hlo Ha) as [Hf _]; try lia.
  destruct (scaled_exact hi b p e0 Hhi Hb) as [_ Hc]; try lia.
  cbn [find_buckets spec_find_buckets]. rewrite Hf, Hc. cbv zeta.
  destruct (min_buckets <? spec_ceil hi e0 - spec_floor lo e0)%Z eqn:T;
    [reflexivity|].
  apply (IH lo hi a b p).
  assert (Hne : e0 <> (p - 1)%Z).
  { intros ->. apply Z.ltb_ge in T.
    destruct (spec_one_below lo a p Hlo) as [E1 _].
    destruct (spec_one_below hi b p Hhi) as [_ E2].
    rewrite E1, E2 in T. unfold min_buckets in T. lia. }
  unfold exact_run. repeat split; try assumption; lia.
Qed.











(** *** The buckets *)






Lemma spec_floor_le_ceil (lo hi : Q) (e : Z) :
  (lo <= hi)%Q -> (spec_floor lo e <= spec_ceil hi e)%Z.
Proof.
  intros H. unfold spec_floor, spec_ceil.
  pose proof (pow10_pos e) as Hp.
  assert (Hd : (lo / pow10 e <= hi / pow10 e)%Q).
  { unfold Qdiv. apply Qmult_le_compat_r; [exact H|].
    apply Qlt_le_weak, Qinv_lt_0_compat, Hp. }
  pose proof (Qfloor_le (lo / pow10 e)) as H1.
  pose proof (Qle_ceiling (hi / pow10 e)) as H2.
  rewrite Zle_Qle. lra.
Qed.







(** ** The resolution of the date histogram *)

(** C7: for every minimum and maximum date, [date_distribution] selects the
    first resolution of the list year, month, week, day (coarsest first)
    whose number of periods between minimum and maximum is at least 5, and
    day when no resolution of the list reaches 5 periods; minimum and
    maximum are then both floored to the start of the period of the
    chosen resolution.  This holds whatever [Arrow.range] and [floor]
    compute. *)
Theorem date_distribution_resolution
    (arrow : Type)
    (Arrow_range : string -> arrow -> arrow -> list arrow)
    (Arrow_floor : arrow -> string -> arrow)
    (min_value max_value : arrow) :
  let count := periods arrow Arrow_range min_value max_value in
  exists resolution,
    date_distribution_range arrow Arrow_range Arrow_floor min_value max_value
    = Ok (resolution, Arrow_floor min_value resolution,
          Arrow_floor max_value resolution)
    /\ resolution = coarsest_resolution arrow Arrow_range min_value max_value
    /\ ((5 <= count "year")%Z -> resolution = "year")
    /\ ((count "year" < 5)%Z -> (5 <= count "month")%Z -> resolution = "month")
    /\ ((count "year" < 5)%Z -> (count "month" < 5)%Z ->
        (5 <= count "week")%Z -> resolution = "week")
    /\ ((count "year" < 5)%Z -> (count "month" < 5)%Z ->
        (count "week" < 5)%Z -> resolution = "day").
Proof.
  intros count.
  unfold date_distribution_range, coarsest_resolution.
  unfold resolutions, dict_keys. simpl. unfold min_buckets. fold count.
  destruct (5 <=? count "year")%Z eqn:Hy;
    [|destruct (5 <=? count "month")%Z eqn:Hm;
      [|destruct (5 <=? count "week")%Z eqn:Hw;
        [|destruct (5 <=? count "day")%Z eqn:Hd]]];
    eexists; (split; [reflexivity|]);
    repeat match goal with
           | H : (_ <=? _)%Z = true |- _ => apply Z.leb_le in H
           | H : (_ <=? _)%Z = false |- _ => apply Z.leb_gt in H
           end;
    repeat split; intros; try reflexivity; lia.
Qed.


(** ** Construction and validation *)

Lemma dict_mem_keys {A : Type} (d : dict A) (k : string) :
  dict_mem d k = true <-> In k (dict_keys d).
Proof.
  unfold dict_mem, dict_keys.
  induction d as [|[k' a] d IH]; simpl.
  - split; [discriminate | tauto].
  - destruct (String.eqb k k') eqn:E.
    + apply String.eqb_eq in E. subst. split; auto.
    + apply String.eqb_neq in E. rewrite IH. split.
      * auto.
      * intros [H|H]; [congruence | exact H].
Qed.

Lemma filter_subsequence {A : Type} (p : A -> bool) (l : list A) :
  subsequence (filter p l) l.
Proof.
  induction l as [|x l IH]; simpl.
  - constructor.
  - destruct (p x); constructor; exact IH.
Qed.

(** C9: whatever filters are passed to the constructor, the constructed
    query keeps exactly those whose column is a schema column, in their
    original order, and construction does not fail: a filter on a column
    outside the schema never appears in the query. *)
Theorem new_query_drops_unknown_filters
    (find_data_set : string -> result DataSet.t)
    (normalize_unicode : string -> string) (ds : DataSet.t)
    (data_set_id : string) (query_id : option string)
    (column_names : option (list string))
    (sort_column_name sort_order : option string)
    (filters_arg : option (list Filter.t))
    (created_at : option py_time) (created_by : option string)
    (updated_at : option py_time) (updated_by : option string) :
  find_data_set data_set_id = Ok ds ->
  exists q,
    new_query find_data_set normalize_unicode data_set_id query_id column_names
              sort_column_name sort_order filters_arg
              created_at created_by updated_at updated_by = Ok q
    /\ subsequence (filters q) (or_empty filters_arg)
    /\ (forall f, In f (filters q) <->
                  In f (or_empty filters_arg)
                  /\ schema_column ds (Filter.column_name f))
    /\ (forall f, ~ schema_column ds (Filter.column_name f) ->
                  ~ In f (filters q))
    /\ filters q
       = filter (fun f => dict_mem (DataSet.columns ds) (Filter.column_name f))
                (or_empty filters_arg).
Proof.
  intros Hds. unfold new_query. rewrite Hds. simpl.
  eexists. split; [reflexivity|]. simpl.
  split; [apply filter_subsequence|].
  assert (Hin : forall f,
             In f (filter (fun f => dict_mem (DataSet.columns ds)
                                             (Filter.column_name f))
                          (or_empty filters_arg)) <->
             In f (or_empty filters_arg)
             /\ schema_column ds (Filter.column_name f)).
  { intros f. rewrite filter_In. unfold schema_column.
    rewrite dict_mem_keys. tauto. }
  split; [exact Hin|]. split; [|reflexivity].
  intros f Hf Hin'. apply Hin in Hin'. tauto.
Qed.

Lemma new_query_drops_unknown_filters_witness :
  find_orders "orders" = Ok orders
  /\ exists q,
      new_query find_orders no_unicode "orders" None None None (Some "ASC")
                (Some [Filter.mk "legacy" "=" (VList [SStr "a"]);
                       Filter.mk "amount" ">" (VScalar (SInt 3))])
                None None None None = Ok q
      /\ subsequence (filters q)
           [Filter.mk "legacy" "=" (VList [SStr "a"]);
            Filter.mk "amount" ">" (VScalar (SInt 3))]
      /\ (forall f, In f (filters q) <->
                    In f [Filter.mk "legacy" "=" (VList [SStr "a"]);
                          Filter.mk "amount" ">" (VScalar (SInt 3))]
                    /\ schema_column orders (Filter.column_name f))
      /\ (forall f, ~ schema_column orders (Filter.column_name f) ->
                    ~ In f (filters q))
      /\ filters q
         = filter (fun f => dict_mem (DataSet.columns orders)
                                     (Filter.column_name f))
                  [Filter.mk "legacy" "=" (VList [SStr "a"]);
                   Filter.mk "amount" ">" (VScalar (SInt 3))].
Proof.
  split.
  - reflexivity.
  - apply (new_query_drops_unknown_filters find_orders no_unicode orders "orders"
             None None None (Some "ASC")
             (Some [Filter.mk "legacy" "=" (VList [SStr "a"]);
                    Filter.mk "amount" ">" (VScalar (SInt 3))])
             None None None None).
    reflexivity.
Defined.


Lemma string_not_empty (s : string) :
  s <> "" -> string_is_empty s = false.
Proof. destruct s; [congruence | reflexivity]. Qed.

Lemma list_not_empty {A : Type} (l : list A) (x : A) :
  In x l -> list_is_empty l = false.
Proof. destruct l; [contradiction | reflexivity]. Qed.

(** The select list is rendered when every selected column is a schema
    column. *)
Lemma select_items_ok (quote_identifier : string -> string -> string)
    (q : Query) (decimal_mark : string) (include_personal_data : bool)
    (names : list string) :
  Forall (schema_column (data_set q)) names ->
  exists items,
    traverse (select_item quote_identifier q decimal_mark
                          include_personal_data) names = Ok items.
Proof.
  induction 1 as [|name names Hname _ IH].
  - exists []. reflexivity.
  - destruct IH as [items Hitems].
    apply dict_mem_keys in Hname. unfold dict_mem in Hname.
    simpl. rewrite Hitems. unfold select_item, dict_item.
    destruct (negb include_personal_data
              && list_mem name
                   (DataSet.personal_data_column_names (data_set q))).
    + eexists. reflexivity.
    + destruct (dict_get (DataSet.columns (data_set q)) name) as [c|];
        [|discriminate].
      simpl.
      destruct (String.eqb (Column.type c) "number"
                && String.eqb decimal_mark ","); eexists; reflexivity.
Qed.

(** The resolved column list is not empty as soon as the schema has a
    column. *)
Lemma new_query_columns_not_empty
    (find_data_set : string -> result DataSet.t)
    (normalize_unicode : string -> string)
    (data_set_id : string) (query_id : option string)
    (names : option (list string))
    (sort_column sort_order : option string)
    (filters_arg : option (list Filter.t))
    (created_at : option py_time) (created_by : option string)
    (updated_at : option py_time) (updated_by : option string)
    (q : Query) (column : string) :
  new_query find_data_set normalize_unicode data_set_id query_id names sort_column sort_order
            filters_arg created_at created_by updated_at updated_by = Ok q ->
  schema_column (data_set q) column ->
  list_is_empty (column_names q) = false.
Proof.
  unfold new_query. destruct (find_data_set data_set_id) as [ds'|]; simpl;
    [|discriminate].
  intros H. injection H as <-. simpl. intros Hc.
  match goal with
  | |- list_is_empty (if list_is_empty ?l then _ else _) = false =>
      destruct (list_is_empty l) eqn:E; [|exact E]
  end.
  exact (list_not_empty _ _ Hc).
Qed.

(** C10: the constructor stores the [sort_order] it is given as it is,
    whatever its value, and checks the sort column only; [to_sql] then
    writes the stored text unchanged between the quoted sort column and
    [NULLS LAST] whenever the sort column is a schema column and the sort
    order is not empty. *)
Theorem sort_order_verbatim
    (quote_identifier : string -> string -> string)
    (quote_text_literal : string -> scalar -> result string)
    (find_data_set : string -> result DataSet.t)
    (normalize_unicode : string -> string) (ds : DataSet.t)
    (data_set_id : string) (query_id : option string)
    (names : option (list string))
    (sort_column sort_order_arg : option string)
    (filters_arg : option (list Filter.t))
    (created_at : option py_time) (created_by : option string)
    (updated_at : option py_time) (updated_by : option string) :
  find_data_set data_set_id = Ok ds ->
  exists q,
    new_query find_data_set normalize_unicode data_set_id query_id names sort_column
              sort_order_arg filters_arg
              created_at created_by updated_at updated_by = Ok q
    /\ sort_order q = sort_order_arg
    /\ (forall column,
          sort_column_name q = Some column <->
          sort_column = Some column /\ schema_column ds column)
    /\ (forall column order where_ limit offset decimal_mark
               include_personal_data,
          sort_column_name q = Some column -> column <> "" ->
          sort_order_arg = Some order -> order <> "" ->
          Forall (schema_column ds) (column_names q) ->
          filters_to_sql quote_identifier quote_text_literal q = Ok where_ ->
          exists columns,
            traverse (select_item quote_identifier q decimal_mark
                                  include_personal_data) (column_names q)
            = Ok columns
            /\ to_sql quote_identifier quote_text_literal q limit offset
                      decimal_mark include_personal_data
               = Ok (Some (nl ++ "SELECT "
                           ++ String.concat ("," ++ nl ++ "       ") columns
                           ++ nl ++ "FROM " ++ quoted_table quote_identifier q
                           ++ nl ++ where_
                           ++ (nl ++ "ORDER BY "
                               ++ quote_identifier (db_of q) column ++ " "
                               ++ order ++ " NULLS LAST" ++ nl)
                           ++ limit_sql "LIMIT" limit
                           ++ limit_sql "OFFSET" offset))).
Proof.
  intros Hds.
  destruct (new_query find_data_set normalize_unicode data_set_id query_id names sort_column
              sort_order_arg filters_arg created_at created_by updated_at
              updated_by) as [q|e] eqn:Hq.
  2: { unfold new_query in Hq. rewrite Hds in Hq. discriminate. }
  exists q. split; [reflexivity|].
  pose proof Hq as Hq'. unfold new_query in Hq'. rewrite Hds in Hq'.
  simpl in Hq'. injection Hq' as Hq'.
  assert (Hdata : data_set q = ds) by (subst q; reflexivity).
  assert (Horder : sort_order q = sort_order_arg) by (subst q; reflexivity).
  assert (Hsort : forall column,
             sort_column_name q = Some column <->
             sort_column = Some column /\ schema_column ds column).
  { intros column. subst q. simpl. unfold schema_column.
    rewrite <- dict_mem_keys.
    destruct sort_column as [c|]; [|split; [discriminate | intros [? _]; discriminate]].
    destruct (dict_mem (DataSet.columns ds) c) eqn:E; split.
    - intros H. injection H as <-. auto.
    - intros [H _]. exact H.
    - discriminate.
    - intros [H H']. injection H as <-. congruence. }
  split; [exact Horder|]. split; [exact Hsort|].
  intros column order where_ limit offset decimal_mark include_personal_data
         Hcol Hcol_ne Harg Horder_ne Hnames Hwhere.
  rewrite <- Hdata in Hnames.
  destruct (select_items_ok quote_identifier q decimal_mark
              include_personal_data (column_names q) Hnames) as [columns Hc].
  exists columns. split; [exact Hc|].
  unfold to_sql.
  assert (Hschema : schema_column (data_set q) column).
  { rewrite Hdata. apply (Hsort column). exact Hcol. }
  rewrite (new_query_columns_not_empty _ _ _ _ _ _ _ _ _ _ _ _ _ _ Hq Hschema).
  rewrite Hc. simpl. rewrite Hwhere. simpl.
  unfold order_by_sql. rewrite Horder, Harg, Hcol.
  rewrite (string_not_empty _ Horder_ne), (string_not_empty _ Hcol_ne).
  simpl. reflexivity.
Qed.

Lemma sort_order_verbatim_witness :
  let order := "DESC, 1; --" in
  find_orders "orders" = Ok orders
  /\ exists q,
      new_query find_orders no_unicode "orders" None None (Some "amount") (Some order)
                None None None None None = Ok q
      /\ sort_order q = Some order
      /\ to_sql pg_quote_identifier pg_quote_text_literal q (Some 10) None
                "." true
         = Ok (Some (nl ++ "SELECT "
                     ++ String.concat ("," ++ nl ++ "       ")
                          [pg_quote_identifier "dwh" "customer";
                           pg_quote_identifier "dwh" "amount"]
                     ++ nl ++ "FROM " ++ quoted_table pg_quote_identifier q
                     ++ nl ++ ""
                     ++ (nl ++ "ORDER BY "
                         ++ pg_quote_identifier "dwh" "amount" ++ " "
                         ++ order ++ " NULLS LAST" ++ nl)
                     ++ limit_sql "LIMIT" (Some 10)
                     ++ limit_sql "OFFSET" None)).
Proof.
  intros order. split; [reflexivity|].
  destruct (sort_order_verbatim pg_quote_identifier pg_quote_text_literal
              find_orders no_unicode orders "orders" None None (Some "amount")
              (Some order) None None None None None eq_refl)
    as (q & Hq & Horder & _ & Hsql).
  exists q. split; [exact Hq|]. split; [exact Horder|].
  destruct (Hsql "amount" order "" (Some 10) None "." true)
    as (columns & Hcolumns & Hto_sql).
  - vm_compute in Hq. injection Hq as <-. reflexivity.
  - discriminate.
  - reflexivity.
  - discriminate.
  - vm_compute in Hq. injection Hq as <-.
    repeat constructor; unfold schema_column; simpl; tauto.
  - vm_compute in Hq. injection Hq as <-. reflexivity.
  - rewrite Hto_sql. vm_compute in Hq. injection Hq as <-.
    vm_compute in Hcolumns. injection Hcolumns as <-.
    reflexivity.
Defined.


(** ** Predicate compilation *)

(** C5, as the code has it: for every filter on a number column and every
    operator text the filter holds, [filter_to_sql] writes that operator
    unchanged between the quoted column and the value; no allow-list is
    consulted. *)
Theorem number_operator_verbatim
    (quote_identifier : string -> string -> string)
    (quote_text_literal : string -> scalar -> result string)
    (q : Query) (column_name operator : string) (v : value)
    (column : Column.t) :
  dict_get (DataSet.columns (data_set q)) column_name = Some column ->
  Column.type column = "number" ->
  filter_to_sql quote_identifier quote_text_literal q
                (Filter.mk column_name operator v)
  = Ok (quote_identifier (db_of q) column_name ++ " " ++ operator ++ " "
        ++ str_value v).
Proof.
  intros Hget Htype. unfold filter_to_sql, dict_item. simpl.
  rewrite Hget. simpl. rewrite Htype. reflexivity.
Qed.

Lemma number_operator_verbatim_witness :
  let q := orders_query ["amount"] [] in
  dict_get (DataSet.columns (data_set q)) "amount"
  = Some (Column.mk "amount" "number")
  /\ Column.type (Column.mk "amount" "number") = "number"
  /\ filter_to_sql pg_quote_identifier pg_quote_text_literal q
       (Filter.mk "amount" "= 0 OR amount >" (VScalar (SInt 3)))
     = Ok (pg_quote_identifier "dwh" "amount" ++ " " ++ "= 0 OR amount >"
           ++ " " ++ "3").
Proof.
  intros q. split; [reflexivity|]. split; [reflexivity|].
  apply (number_operator_verbatim pg_quote_identifier pg_quote_text_literal
           q "amount" "= 0 OR amount >" (VScalar (SInt 3))
           (Column.mk "amount" "number")); reflexivity.
Defined.

(** C5 as stated fails: a filter on the number column [amount] whose
    operator is not one of the six comparison operators compiles, and the
    predicate is not the one of any operator of the allow-list. *)
Lemma number_operator_not_restricted :
  ~ (forall (q : Query) (f : Filter.t) (column : Column.t) (sql : string),
        dict_get (DataSet.columns (data_set q)) (Filter.column_name f)
        = Some column ->
        Column.type column = "number" ->
        filter_to_sql pg_quote_identifier pg_quote_text_literal q f = Ok sql ->
        exists op,
          In op number_operators
          /\ sql = pg_quote_identifier (db_of q) (Filter.column_name f)
                   ++ " " ++ op ++ " " ++ str_value (Filter.value f)).
Proof.
  intros claim.
  destruct (claim (orders_query ["amount"] [])
                  (Filter.mk "amount" "= 0 OR amount >" (VScalar (SInt 3)))
                  (Column.mk "amount" "number") _
                  eq_refl eq_refl eq_refl) as (op & Hin & Hsql).
  simpl in Hin.
  repeat (destruct Hin as [<-|Hin]; [vm_compute in Hsql; discriminate|]).
  contradiction.
Qed.

(** X9: in the contains branch every value goes through the literal
    quoting: the predicate is the parenthesised [OR] of one [LIKE] clause
    per value, built from the literal the quoting returns. *)
Lemma filter_to_sql_contains_quoted
    (quote_identifier : string -> string -> string)
    (quote_text_literal : string -> scalar -> result string)
    (q : Query) (column_name : string) (column : Column.t)
    (values : list scalar) (literals : list string) :
  dict_get (DataSet.columns (data_set q)) column_name = Some column ->
  Column.type column = "text" ->
  values <> [] ->
  traverse (quote_text_literal (db_of q)) values = Ok literals ->
  filter_to_sql quote_identifier quote_text_literal q
                (Filter.mk column_name "~" (VList values))
  = Ok ("(" ++ String.concat " OR "
                 (map (fun lit =>
                         "lower(" ++ quote_identifier (db_of q) column_name
                         ++ ") LIKE concat('%', " ++ lit ++ ", '%')")
                      literals)
        ++ ")").
Proof.
  intros Hget Htype Hne Hlits.
  assert (Hmap : forall vs lits,
             traverse (quote_text_literal (db_of q)) vs = Ok lits ->
             traverse
               (fun v0 =>
                  lit <- quote_text_literal (db_of q) v0 ;;
                  Ok ("lower(" ++ quote_identifier (db_of q) column_name
                      ++ ") LIKE concat('%', " ++ lit ++ ", '%')")) vs
             = Ok (map (fun lit =>
                          "lower(" ++ quote_identifier (db_of q) column_name
                          ++ ") LIKE concat('%', " ++ lit ++ ", '%')") lits)).
  { induction vs as [|v0 vs IH]; intros lits H; simpl in H.
    - injection H as <-. reflexivity.
    - destruct (quote_text_literal (db_of q) v0) as [lit|] eqn:Hv;
        [|discriminate].
      simpl in H.
      destruct (traverse (quote_text_literal (db_of q)) vs) as [lits'|];
        [|discriminate].
      simpl in H. injection H as <-.
      cbn [traverse]. rewrite Hv. cbn [bind].
      rewrite (IH lits' eq_refl). reflexivity. }
  unfold filter_to_sql, dict_item. cbn [Filter.column_name].
  rewrite Hget. cbn [bind]. rewrite Htype.
  change (String.eqb "text" "text") with true. cbn iota.
  cbn [Filter.operator Filter.value].
  change (String.eqb "~" "~") with true. cbn iota.
  destruct values as [|v values]; [congruence|].
  change (values_or_blank (VList (v :: values))) with (Ok (v :: values)).
  cbn [bind]. rewrite (Hmap _ _ Hlits). reflexivity.
Qed.

(** C1, the code at the failing input: a text filter with operator [=]
    whose value holds a single quote is compiled without consulting the
    literal quoting, so the quote reaches the fragment unescaped; the same
    holds on a text-array and on a date column, while the contains branch
    escapes the same value. *)
Theorem filter_to_sql_value_not_quoted
    (quote_identifier : string -> string -> string)
    (quote_text_literal : string -> scalar -> result string) :
  let q := orders_query ["customer"] [] in
  filter_to_sql quote_identifier quote_text_literal q
    (Filter.mk "customer" "=" (VList [SStr injection]))
  = Ok (quote_identifier "dwh" "customer" ++ " IN ('x' OR '1'='1')")
  /\ filter_to_sql quote_identifier quote_text_literal q
       (Filter.mk "tags" "=" (VList [SStr injection]))
     = Ok (quote_identifier "dwh" "tags"
           ++ " && ARRAY['x' OR '1'='1']::TEXT[]")
  /\ filter_to_sql quote_identifier quote_text_literal q
       (Filter.mk "ordered_at" ">=" (VScalar (SStr injection)))
     = Ok (quote_identifier "dwh" "ordered_at" ++ " >= 'x' OR '1'='1' ")
  /\ filter_to_sql quote_identifier pg_quote_text_literal q
       (Filter.mk "customer" "~" (VList [SStr injection]))
     = Ok ("(" ++ ("lower(" ++ quote_identifier "dwh" "customer"
                   ++ ") LIKE concat('%', 'x'' OR ''1''=''1', '%')")
           ++ ")").
Proof.
  intros q. repeat split; reflexivity.
Qed.


(** ** Column selection *)

(** Explicitly given column names are stored as they are. *)
Lemma new_query_explicit_columns
    (find_data_set : string -> result DataSet.t)
    (normalize_unicode : string -> string) (ds : DataSet.t)
    (data_set_id : string) (query_id : option string)
    (names : list string) (sort_column sort_order_arg : option string)
    (filters_arg : option (list Filter.t))
    (created_at : option py_time) (created_by : option string)
    (updated_at : option py_time) (updated_by : option string) :
  find_data_set data_set_id = Ok ds ->
  names <> [] ->
  exists q,
    new_query find_data_set normalize_unicode data_set_id query_id (Some names) sort_column
              sort_order_arg filters_arg
              created_at created_by updated_at updated_by = Ok q
    /\ column_names q = names.
Proof.
  intros Hds Hne. unfold new_query. rewrite Hds. simpl.
  eexists. split; [reflexivity|]. simpl.
  destruct names as [|n names]; [congruence | reflexivity].
Qed.

(** C2, the code at the failing input: the column [legacy] is not in the
    schema of [orders]; given explicitly it stays in [column_names] and
    [to_sql] then fails on the schema lookup, whereas the same name in the
    default column list of the data set is dropped. *)
Theorem new_query_keeps_unknown_column :
  ~ schema_column orders "legacy"
  /\ (exists q,
        new_query find_orders no_unicode "orders" None (Some ["customer"; "legacy"])
                  None (Some "ASC") None None None None None = Ok q
        /\ column_names q = ["customer"; "legacy"]
        /\ to_sql pg_quote_identifier pg_quote_text_literal q None None
                  "." true = Raise KeyError)
  /\ (exists q,
        new_query find_orders no_unicode "orders" None None
                  None (Some "ASC") None None None None None = Ok q
        /\ DataSet.default_column_names (data_set q)
           = ["customer"; "amount"; "legacy"]
        /\ column_names q = ["customer"; "amount"]).
Proof.
  split; [|split].
  - unfold schema_column. simpl. intros H.
    repeat (destruct H as [H|H]; [discriminate|]). contradiction.
  - eexists. split; [reflexivity|]. split; reflexivity.
  - eexists. split; [reflexivity|]. split; reflexivity.
Qed.

(** ** Row counts *)

Lemma py_index_out_of_range {A : Type} (xs : list A) (i : Z) :
  (i < - Z.of_nat (List.length xs) \/ Z.of_nat (List.length xs) <= i)%Z ->
  py_index xs i = Raise IndexError.
Proof.
  intros H. unfold py_index.
  destruct (i <? 0)%Z eqn:Hneg.
  - apply Z.ltb_lt in Hneg.
    replace (0 <=? i + Z.of_nat (List.length xs))%Z with false; [reflexivity|].
    symmetry. apply Z.leb_gt. lia.
  - apply Z.ltb_ge in Hneg.
    replace (i <? Z.of_nat (List.length xs))%Z with false.
    + rewrite andb_false_r. reflexivity.
    + symmetry. apply Z.ltb_ge. lia.
Qed.

Lemma py_index_in_range {A : Type} (xs : list A) (i : Z) :
  (- Z.of_nat (List.length xs) <= i < Z.of_nat (List.length xs))%Z ->
  exists x, py_index xs i = Ok x /\ In x xs.
Proof.
  intros H. unfold py_index.
  set (n := Z.of_nat (List.length xs)) in *.
  set (j := if (i <? 0)%Z then (i + n)%Z else i).
  assert (Hj : (0 <= j < n)%Z).
  { unfold j. destruct (i <? 0)%Z eqn:Hneg.
    - apply Z.ltb_lt in Hneg. lia.
    - apply Z.ltb_ge in Hneg. lia. }
  replace ((0 <=? j)%Z && (j <? n)%Z) with true.
  - destruct (nth_error xs (Z.to_nat j)) as [x|] eqn:Hnth.
    + exists x. split; [reflexivity|]. eapply nth_error_In. exact Hnth.
    + apply nth_error_None in Hnth. lia.
  - symmetry. apply andb_true_iff. split; [apply Z.leb_le | apply Z.ltb_lt]; lia.
Qed.

(** X17: a position outside the filter list makes [filter_row_count]
    fail with an index error, before any statement is executed. *)
Lemma filter_row_count_index_error
    (quote_identifier : string -> string -> string)
    (quote_text_literal : string -> scalar -> result string)
    (execute_query : string -> string -> result (list row * list string))
    (q : Query) (filter_pos : Z) :
  (filter_pos < - Z.of_nat (List.length (filters q))
   \/ Z.of_nat (List.length (filters q)) <= filter_pos)%Z ->
  filter_row_count quote_identifier quote_text_literal execute_query
                   q filter_pos = Raise IndexError.
Proof.
  intros H. unfold filter_row_count.
  rewrite (py_index_out_of_range _ _ H). reflexivity.
Qed.

(** At a valid position the result is the row list of the executor. *)
Lemma filter_row_count_rows
    (quote_identifier : string -> string -> string)
    (quote_text_literal : string -> scalar -> result string)
    (execute_query : string -> string -> result (list row * list string))
    (q : Query) (filter_pos : Z) (f : Filter.t) (predicate : string)
    (rows : list row) (names : list string) :
  py_index (filters q) filter_pos = Ok f ->
  filter_to_sql quote_identifier quote_text_literal q f = Ok predicate ->
  execute_query (db_of q)
    (count_sql ++ quoted_table quote_identifier q ++ " " ++ nl ++ "WHERE "
     ++ predicate) = Ok (rows, names) ->
  filter_row_count quote_identifier quote_text_literal execute_query
                   q filter_pos = Ok rows.
Proof.
  intros Hf Hp He. unfold filter_row_count.
  rewrite Hf. cbn [bind]. rewrite Hp. cbn [bind]. rewrite He. reflexivity.
Qed.

(** C3, the code at the failing input: with an executor that answers the
    count statement with the single row [(42,)], [row_count] returns the
    number 42, while [filter_row_count] at the valid positions 0 and -1
    returns the list of rows and not the number; position 1 is out of
    range and raises the index error. *)
Theorem filter_row_count_returns_rows :
  let q := orders_query ["amount"]
             [Filter.mk "amount" ">" (VScalar (SInt 3))] in
  row_count pg_quote_identifier pg_quote_text_literal count_executor q
  = Ok (CNum (42 # 1))
  /\ filter_row_count pg_quote_identifier pg_quote_text_literal
                      count_executor q 0 = Ok [[CNum (42 # 1)]]
  /\ filter_row_count pg_quote_identifier pg_quote_text_literal
                      count_executor q (-1) = Ok [[CNum (42 # 1)]]
  /\ filter_row_count pg_quote_identifier pg_quote_text_literal
                      count_executor q 1 = Raise IndexError.
Proof.
  intros q. repeat split; reflexivity.
Qed.


(** ** Serialisation *)

Lemma is_word_lower_char (c : ascii) : is_word (lower_char c) = is_word c.
Proof. destruct c as [[] [] [] [] [] [] [] []]; reflexivity. Qed.

Lemma lower_char_idempotent (c : ascii) :
  lower_char (lower_char c) = lower_char c.
Proof. destruct c as [[] [] [] [] [] [] [] []]; reflexivity. Qed.

Lemma lower_idempotent (s : string) : lower (lower s) = lower s.
Proof.
  induction s as [|c s IH]; simpl.
  - reflexivity.
  - rewrite lower_char_idempotent, IH. reflexivity.
Qed.

(** Replacing the runs of non-word characters a second time, after the
    lower-casing, changes nothing. *)
Lemma sub_nonword_lower_fixed (s : string) :
  forall in_run,
    sub_nonword in_run (lower (sub_nonword in_run s))
    = lower (sub_nonword in_run s).
Proof.
  induction s as [|c s IH]; intros in_run; simpl.
  - reflexivity.
  - destruct (is_word c) eqn:Hw.
    + simpl. rewrite is_word_lower_char, Hw, IH. reflexivity.
    + destruct in_run.
      * apply IH.
      * simpl. rewrite IH. reflexivity.
Qed.

Lemma lower_char_ascii (c : ascii) :
  is_ascii_char c = true -> is_ascii_char (lower_char c) = true.
Proof.
  destruct c as [[] [] [] [] [] [] [] []]; intros H;
    try discriminate H; reflexivity.
Qed.

Lemma normalized_is_ascii (s : string) :
  is_ascii_text s = true ->
  forall in_run, is_ascii_text (lower (sub_nonword in_run s)) = true.
Proof.
  induction s as [|c s IH]; intros H in_run; simpl.
  - reflexivity.
  - simpl in H. apply andb_true_iff in H. destruct H as [Hc Hs].
    destruct (is_word c).
    + simpl. rewrite (lower_char_ascii c Hc). apply IH. exact Hs.
    + destruct in_run; [apply IH; exact Hs|].
      simpl. apply IH. exact Hs.
Qed.

(** On ASCII text the normalisation of a query id is idempotent. *)
Lemma normalize_query_id_idempotent (normalize_unicode : string -> string)
    (query_id : option string) :
  ascii_id query_id = true ->
  normalize_query_id normalize_unicode
    (Some (normalize_query_id normalize_unicode query_id))
  = normalize_query_id normalize_unicode query_id.
Proof.
  intros Ha. destruct query_id as [[|c s]|]; try reflexivity.
  cbn [ascii_id] in Ha.
  assert (Hn : normalize_query_id normalize_unicode (Some (String c s))
               = lower (sub_nonword false (String c s))).
  { unfold normalize_query_id. cbn [truthy_opt_string string_is_empty negb].
    rewrite Ha. reflexivity. }
  rewrite Hn.
  pose proof (normalized_is_ascii (String c s) Ha false) as Hascii.
  unfold normalize_query_id, truthy_opt_string.
  destruct (lower (sub_nonword false (String c s))) as [|c' t] eqn:E.
  - reflexivity.
  - cbn [string_is_empty negb]. rewrite Hascii. rewrite <- E.
    rewrite sub_nonword_lower_fixed. apply lower_idempotent.
Qed.

Lemma Filter_roundtrip (f : Filter.t) :
  Filter_from_dict (Filter_to_dict f) = f.
Proof. destruct f; reflexivity. Qed.

Lemma Filters_roundtrip (fs : list Filter.t) :
  map Filter_from_dict (map Filter_to_dict fs) = fs.
Proof.
  induction fs as [|f fs IH]; simpl.
  - reflexivity.
  - rewrite Filter_roundtrip, IH. reflexivity.
Qed.

Lemma filter_idempotent {A : Type} (p : A -> bool) (l : list A) :
  filter p (filter p l) = filter p l.
Proof.
  induction l as [|x l IH]; simpl.
  - reflexivity.
  - destruct (p x) eqn:E; simpl; [rewrite E, IH|]; auto.
Qed.

(** Resolving an already resolved column list gives the same list. *)
Lemma resolve_columns_idempotent (ds : DataSet.t) (names : list string) :
  let defaults := filter (dict_mem (DataSet.columns ds))
                         (DataSet.default_column_names ds) in
  let resolve names0 :=
    let names1 := if list_is_empty names0 then defaults else names0 in
    if list_is_empty names1 then dict_keys (DataSet.columns ds)
    else names1 in
  resolve (resolve names) = resolve names.
Proof.
  intros defaults resolve. unfold resolve.
  destruct names as [|n names]; simpl.
  - destruct defaults as [|d defaults'] eqn:Hd; simpl.
    + destruct (dict_keys (DataSet.columns ds)) eqn:Hk; simpl; reflexivity.
    + reflexivity.
  - reflexivity.
Qed.

Lemma format_time_datetime (t : option datetime) :
  format_time (option_map PyDatetime t)
  = Ok (option_map (fun d => PyStr (strftime_Ymd d)) t).
Proof. destruct t; reflexivity. Qed.

(** C4, as the code has it: for every query constructed with an ASCII or
    absent query id and with [datetime] or absent audit time stamps, over
    a schema provider that returns the data set under the id it is asked
    for, [to_dict] and [from_dict] succeed and [from_dict (to_dict q)] is
    a query equal to [q] on the data set, [data_set_id], [query_id],
    [column_names], [sort_column_name], [sort_order], [filters],
    [created_by] and [updated_by].  Nothing is stated about [created_at]
    and [updated_at]. *)
Theorem query_roundtrip
    (find_data_set : string -> result DataSet.t)
    (normalize_unicode : string -> string) (ds : DataSet.t)
    (id : string) (query_id_arg : option string)
    (names : option (list string))
    (sort_column sort_order_arg : option string)
    (filters_arg : option (list Filter.t))
    (created_at_arg : option datetime) (created_by_arg : option string)
    (updated_at_arg : option datetime) (updated_by_arg : option string) :
  find_data_set id = Ok ds ->
  DataSet.id ds = id ->
  ascii_id query_id_arg = true ->
  exists q d q',
    new_query find_data_set normalize_unicode id query_id_arg names
              sort_column sort_order_arg
              filters_arg (option_map PyDatetime created_at_arg)
              created_by_arg (option_map PyDatetime updated_at_arg)
              updated_by_arg = Ok q
    /\ to_dict q = Ok d
    /\ from_dict find_data_set normalize_unicode d = Ok q'
    /\ data_set q' = data_set q
    /\ data_set_id q' = data_set_id q
    /\ query_id q' = query_id q
    /\ column_names q' = column_names q
    /\ sort_column_name q' = sort_column_name q
    /\ sort_order q' = sort_order q
    /\ filters q' = filters q
    /\ created_by q' = created_by q
    /\ updated_by q' = updated_by q.
Proof.
  intros Hds Hid Hascii.
  eexists. eexists. eexists.
  split.
  { unfold new_query. rewrite Hds. cbn [bind]. reflexivity. }
  split.
  { unfold to_dict. cbn [created_at updated_at].
    rewrite !format_time_datetime. cbn [bind]. reflexivity. }
  split.
  { unfold from_dict, new_query.
    cbn [QueryDict.data_set_id data_set]. rewrite Hid, Hds. cbn [bind].
    reflexivity. }
  cbn [data_set data_set_id query_id column_names sort_column_name sort_order
       filters created_by updated_by created_at updated_at
       QueryDict.data_set_id QueryDict.query_id QueryDict.column_names
       QueryDict.sort_column_name QueryDict.sort_order QueryDict.filters
       QueryDict.created_at QueryDict.created_by QueryDict.updated_at
       QueryDict.updated_by or_empty].
  repeat split.
  - apply normalize_query_id_idempotent. exact Hascii.
  - apply (resolve_columns_idempotent ds (or_empty names)).
  - destruct sort_column as [c|]; [|reflexivity].
    destruct (dict_mem (DataSet.columns ds) c) eqn:E; [rewrite E|]; reflexivity.
  - rewrite Filters_roundtrip. apply filter_idempotent.
Qed.

Lemma query_roundtrip_witness :
  let stamp := mk_datetime 2020 1 2 10 30 0 in
  find_orders "orders" = Ok orders
  /\ DataSet.id orders = "orders"
  /\ ascii_id (Some "Top Orders") = true
  /\ exists q d q',
      new_query find_orders no_unicode "orders" (Some "Top Orders") None
                (Some "amount") (Some "DESC")
                (Some [Filter.mk "amount" ">" (VScalar (SInt 3))])
                (option_map PyDatetime (Some stamp)) (Some "alice")
                (option_map PyDatetime None) None = Ok q
      /\ to_dict q = Ok d
      /\ from_dict find_orders no_unicode d = Ok q'
      /\ data_set q' = data_set q
      /\ data_set_id q' = data_set_id q
      /\ query_id q' = query_id q
      /\ column_names q' = column_names q
      /\ sort_column_name q' = sort_column_name q
      /\ sort_order q' = sort_order q
      /\ filters q' = filters q
      /\ created_by q' = created_by q
      /\ updated_by q' = updated_by q.
Proof.
  intros stamp. split; [reflexivity|]. split; [reflexivity|].
  split; [reflexivity|].
  apply (query_roundtrip find_orders no_unicode orders "orders"
           (Some "Top Orders") None
           (Some "amount") (Some "DESC")
           (Some [Filter.mk "amount" ">" (VScalar (SInt 3))])
           (Some stamp) (Some "alice") None None); reflexivity.
Defined.

(** C4 as stated fails: a query constructed with a creation time does not
    come back equal from [from_dict (to_dict q)]; the time stamp comes
    back as the formatted text. *)
Lemma query_roundtrip_changes_created_at :
  exists q d q',
    new_query find_orders no_unicode "orders" (Some "Top Orders") None None
              (Some "ASC") None
              (Some (PyDatetime (mk_datetime 2020 1 2 10 30 0)))
              (Some "alice") None None = Ok q
    /\ to_dict q = Ok d
    /\ from_dict find_orders no_unicode d = Ok q'
    /\ created_at q = Some (PyDatetime (mk_datetime 2020 1 2 10 30 0))
    /\ created_at q' = Some (PyStr "2020-01-02")
    /\ q' <> q.
Proof.
  eexists. eexists. eexists.
  split; [reflexivity|]. split; [reflexivity|]. split; [reflexivity|].
  split; [reflexivity|]. split; [reflexivity|].
  intros H. apply (f_equal created_at) in H. discriminate H.
Qed.

(** * Further properties *)

(** ** Filters and query ids *)

(** X1: a filter and its mapping determine each other: [from_dict] undoes
    [to_dict] and [to_dict] undoes [from_dict]. *)
Theorem Filter_dict_roundtrip (f : Filter.t) (d : FilterDict.t) :
  Filter_from_dict (Filter_to_dict f) = f
  /\ Filter_to_dict (Filter_from_dict d) = d.
Proof. destruct f, d. split; reflexivity. Qed.

Lemma id_char_lower_word (c : ascii) :
  is_word c = true ->
  id_char (lower_char c) = true /\ is_dash (lower_char c) = false.
Proof.
  destruct c as [[] [] [] [] [] [] [] []]; intros H;
    try discriminate H; split; reflexivity.
Qed.

Lemma normalized_shape (s : string) :
  forall in_run,
    let t := lower (sub_nonword in_run s) in
    string_forall id_char t = true
    /\ no_double_dash t = true
    /\ (in_run = true -> starts_with_dash t = false).
Proof.
  induction s as [|c s IH]; intros in_run; simpl.
  - repeat split.
  - destruct (is_word c) eqn:Hw.
    + destruct (IH false) as (Hall & Hdd & _).
      destruct (id_char_lower_word c Hw) as [Hid Hnd].
      simpl. rewrite Hid, Hnd, Hall, Hdd. repeat split.
    + destruct in_run.
      * apply IH.
      * destruct (IH true) as (Hall & Hdd & Hstart).
        simpl. rewrite Hall, Hdd, (Hstart eq_refl).
        repeat split. discriminate.
Qed.

(** X2: when the query id given is ASCII text (or absent), the stored id
    consists of lower-case letters, digits, underscores and dashes only,
    has no two dashes in a row, and normalising it again leaves it
    unchanged. *)
Theorem normalize_query_id_shape (normalize_unicode : string -> string)
    (query_id : option string) :
  ascii_id query_id = true ->
  let stored := normalize_query_id normalize_unicode query_id in
  string_forall id_char stored = true
  /\ no_double_dash stored = true
  /\ normalize_query_id normalize_unicode (Some stored) = stored.
Proof.
  intros Hascii stored.
  assert (Hshape : string_forall id_char stored = true
                   /\ no_double_dash stored = true).
  { unfold stored, normalize_query_id.
    destruct (truthy_opt_string query_id); [|split; reflexivity].
    destruct query_id as [s|]; [|split; reflexivity].
    cbn [ascii_id] in Hascii. rewrite Hascii.
    destruct (normalized_shape s false) as (H1 & H2 & _). split; assumption. }
  destruct Hshape as [H1 H2]. split; [exact H1|]. split; [exact H2|].
  apply normalize_query_id_idempotent. exact Hascii.
Qed.

Lemma normalize_query_id_shape_witness :
  ascii_id (Some "Hello  World!! x_1") = true
  /\ let stored := normalize_query_id no_unicode (Some "Hello  World!! x_1") in
     string_forall id_char stored = true
     /\ no_double_dash stored = true
     /\ normalize_query_id no_unicode (Some stored) = stored.
Proof.
  split; [reflexivity|].
  apply (normalize_query_id_shape no_unicode (Some "Hello  World!! x_1")).
  reflexivity.
Defined.

(** ** Construction *)

Lemma dict_keys_empty {A : Type} (d : dict A) :
  dict_keys d = [] <-> d = [].
Proof.
  destruct d; simpl; split; intros H; try reflexivity; discriminate.
Qed.

(** X3: when no column names are given (none or an empty list), every
    resolved column name is a schema column, and the resolved list is
    empty exactly when the schema has no column. *)
Theorem new_query_resolved_columns
    (find_data_set : string -> result DataSet.t)
    (normalize_unicode : string -> string) (ds : DataSet.t)
    (data_set_id : string) (query_id : option string)
    (names : option (list string))
    (sort_column sort_order_arg : option string)
    (filters_arg : option (list Filter.t))
    (created_at_arg : option py_time) (created_by_arg : option string)
    (updated_at_arg : option py_time) (updated_by_arg : option string) :
  find_data_set data_set_id = Ok ds ->
  or_empty names = [] ->
  exists q,
    new_query find_data_set normalize_unicode data_set_id query_id names sort_column
              sort_order_arg filters_arg created_at_arg created_by_arg
              updated_at_arg updated_by_arg = Ok q
    /\ Forall (schema_column ds) (column_names q)
    /\ (column_names q = [] <-> DataSet.columns ds = []).
Proof.
  intros Hds Hnames. unfold new_query. rewrite Hds. cbn [bind].
  eexists. split; [reflexivity|]. cbn [column_names]. rewrite Hnames.
  cbn [list_is_empty].
  set (defaults := filter (dict_mem (DataSet.columns ds))
                          (DataSet.default_column_names ds)).
  assert (Hdefaults : Forall (schema_column ds) defaults).
  { apply Forall_forall. intros name Hin. unfold defaults in Hin.
    apply filter_In in Hin. destruct Hin as [_ Hmem].
    apply dict_mem_keys. exact Hmem. }
  destruct defaults as [|name rest] eqn:Hd; cbn [list_is_empty].
  - split.
    + apply Forall_forall. intros name Hin. exact Hin.
    + apply dict_keys_empty.
  - split; [exact Hdefaults|]. split; [discriminate|].
    intros Hcols. inversion Hdefaults as [|? ? Hname _]; subst.
    unfold schema_column in Hname. rewrite Hcols in Hname. contradiction.
Qed.

Lemma new_query_resolved_columns_witness :
  find_orders "orders" = Ok orders
  /\ or_empty (Some (@nil string)) = []
  /\ exists q,
      new_query find_orders no_unicode "orders" None (Some []) None (Some "ASC") None
                None None None None = Ok q
      /\ Forall (schema_column orders) (column_names q)
      /\ (column_names q = [] <-> DataSet.columns orders = []).
Proof.
  split; [reflexivity|]. split; [reflexivity|].
  apply (new_query_resolved_columns find_orders no_unicode orders "orders" None
           (Some []) None (Some "ASC") None None None None None);
    reflexivity.
Defined.

Lemma append_not_empty (a : string) (c : ascii) (b : string) :
  string_is_empty (a ++ String c b) = false.
Proof. destruct a; reflexivity. Qed.

Lemma strftime_Ymd_not_empty (d : datetime) :
  string_is_empty (strftime_Ymd d) = false.
Proof. unfold strftime_Ymd. apply append_not_empty. Qed.

(** X4: a query constructed with a creation or an update time survives
    one serialisation only: [to_dict] and [from_dict] succeed, and
    [to_dict] of the query that comes back raises [AttributeError],
    because the time stamp is now text. *)
Theorem to_dict_after_roundtrip_fails
    (find_data_set : string -> result DataSet.t)
    (normalize_unicode : string -> string) (ds : DataSet.t)
    (id : string) (query_id_arg : option string)
    (names : option (list string))
    (sort_column sort_order_arg : option string)
    (filters_arg : option (list Filter.t))
    (created_at_arg : option datetime) (created_by_arg : option string)
    (updated_at_arg : option datetime) (updated_by_arg : option string) :
  find_data_set id = Ok ds ->
  DataSet.id ds = id ->
  created_at_arg <> None \/ updated_at_arg <> None ->
  exists q d q',
    new_query find_data_set normalize_unicode id query_id_arg names sort_column sort_order_arg
              filters_arg (option_map PyDatetime created_at_arg)
              created_by_arg (option_map PyDatetime updated_at_arg)
              updated_by_arg = Ok q
    /\ to_dict q = Ok d
    /\ from_dict find_data_set normalize_unicode d = Ok q'
    /\ to_dict q' = Raise AttributeError.
Proof.
  intros Hds Hid Hstamp.
  eexists. eexists. eexists.
  split.
  { unfold new_query. rewrite Hds. cbn [bind]. reflexivity. }
  split.
  { unfold to_dict. cbn [created_at updated_at].
    rewrite !format_time_datetime. cbn [bind]. reflexivity. }
  split.
  { unfold from_dict, new_query.
    cbn [QueryDict.data_set_id data_set]. rewrite Hid, Hds. cbn [bind].
    reflexivity. }
  unfold to_dict.
  cbn [created_at updated_at QueryDict.created_at QueryDict.updated_at].
  destruct created_at_arg as [c|]; cbn [option_map format_time].
  - rewrite strftime_Ymd_not_empty. reflexivity.
  - destruct updated_at_arg as [u|]; cbn [option_map format_time bind].
    + rewrite strftime_Ymd_not_empty. reflexivity.
    + destruct Hstamp as [H|H]; congruence.
Qed.

Lemma to_dict_after_roundtrip_fails_witness :
  find_orders "orders" = Ok orders
  /\ DataSet.id orders = "orders"
  /\ (@None datetime <> None \/ Some (mk_datetime 2021 7 9 0 0 0) <> None)
  /\ exists q d q',
      new_query find_orders no_unicode "orders" (Some "q") None None (Some "ASC") None
                (option_map PyDatetime None) None
                (option_map PyDatetime (Some (mk_datetime 2021 7 9 0 0 0)))
                (Some "bob") = Ok q
      /\ to_dict q = Ok d
      /\ from_dict find_orders no_unicode d = Ok q'
      /\ to_dict q' = Raise AttributeError.
Proof.
  split; [reflexivity|]. split; [reflexivity|].
  split; [right; discriminate|].
  apply (to_dict_after_roundtrip_fails find_orders no_unicode orders "orders" (Some "q")
           None None (Some "ASC") None None None
           (Some (mk_datetime 2021 7 9 0 0 0)) (Some "bob")).
  - reflexivity.
  - reflexivity.
  - right. discriminate.
Defined.

(** X5: a query constructed with an ASCII or absent query id and without
    time stamps comes back from
    [from_dict (to_dict q)] as the very same query, provided the schema
    provider returns the data set under the id it is asked for. *)
Theorem query_roundtrip_without_timestamps
    (find_data_set : string -> result DataSet.t)
    (normalize_unicode : string -> string) (ds : DataSet.t)
    (id : string) (query_id_arg : option string)
    (names : option (list string))
    (sort_column sort_order_arg : option string)
    (filters_arg : option (list Filter.t))
    (created_by_arg updated_by_arg : option string) :
  find_data_set id = Ok ds ->
  DataSet.id ds = id ->
  ascii_id query_id_arg = true ->
  exists q d,
    new_query find_data_set normalize_unicode id query_id_arg names sort_column sort_order_arg
              filters_arg None created_by_arg None updated_by_arg = Ok q
    /\ to_dict q = Ok d
    /\ from_dict find_data_set normalize_unicode d = Ok q.
Proof.
  intros Hds Hid Hascii.
  eexists. eexists.
  split.
  { unfold new_query. rewrite Hds. cbn [bind]. reflexivity. }
  split.
  { unfold to_dict. cbn [created_at updated_at format_time bind].
    reflexivity. }
  unfold from_dict, new_query.
  cbn [QueryDict.data_set_id data_set]. rewrite Hid, Hds. cbn [bind].
  cbn [data_set data_set_id query_id column_names sort_column_name sort_order
       filters created_by updated_by created_at updated_at
       QueryDict.data_set_id QueryDict.query_id QueryDict.column_names
       QueryDict.sort_column_name QueryDict.sort_order QueryDict.filters
       QueryDict.created_at QueryDict.created_by QueryDict.updated_at
       QueryDict.updated_by or_empty].
  apply f_equal. f_equal.
  - apply normalize_query_id_idempotent. exact Hascii.
  - apply (resolve_columns_idempotent ds (or_empty names)).
  - destruct sort_column as [c|]; [|reflexivity].
    destruct (dict_mem (DataSet.columns ds) c) eqn:E; [rewrite E|]; reflexivity.
  - rewrite Filters_roundtrip. apply filter_idempotent.
Qed.

Lemma query_roundtrip_without_timestamps_witness :
  find_orders "orders" = Ok orders
  /\ DataSet.id orders = "orders"
  /\ ascii_id (Some "Big Orders") = true
  /\ exists q d,
      new_query find_orders no_unicode "orders" (Some "Big Orders") (Some ["amount"])
                (Some "amount") (Some "DESC")
                (Some [Filter.mk "amount" ">" (VScalar (SInt 100))])
                None (Some "alice") None None = Ok q
      /\ to_dict q = Ok d
      /\ from_dict find_orders no_unicode d = Ok q.
Proof.
  split; [reflexivity|]. split; [reflexivity|]. split; [reflexivity|].
  apply (query_roundtrip_without_timestamps find_orders no_unicode orders "orders"
           (Some "Big Orders") (Some ["amount"]) (Some "amount") (Some "DESC")
           (Some [Filter.mk "amount" ">" (VScalar (SInt 100))])
           (Some "alice") None); reflexivity.
Defined.

(** ** Predicates of text and array filters *)

Lemma values_or_blank_falsy (v : value) :
  truthy v = false -> values_or_blank v = Ok [SStr ""].
Proof. intros H. unfold values_or_blank. rewrite H. reflexivity. Qed.

(** X6: on a text or text-array column an empty value list, [None], the
    empty text, zero and [False] all compile to the predicate of the list
    holding the empty text, whatever the operator. *)
Theorem filter_to_sql_falsy_value
    (quote_identifier : string -> string -> string)
    (quote_text_literal : string -> scalar -> result string)
    (q : Query) (column_name operator : string) (v : value)
    (column : Column.t) :
  dict_get (DataSet.columns (data_set q)) column_name = Some column ->
  Column.type column = "text" \/ Column.type column = "text[]" ->
  truthy v = false ->
  filter_to_sql quote_identifier quote_text_literal q
                (Filter.mk column_name operator v)
  = filter_to_sql quote_identifier quote_text_literal q
                  (Filter.mk column_name operator (VList [SStr ""])).
Proof.
  intros Hget Htype Hfalsy. unfold filter_to_sql, dict_item.
  cbn [Filter.column_name Filter.operator Filter.value].
  rewrite Hget. cbn [bind].
  rewrite (values_or_blank_falsy v Hfalsy).
  change (values_or_blank (VList [SStr ""])) with (Ok [SStr ""]).
  destruct Htype as [-> | ->]; reflexivity.
Qed.

Lemma filter_to_sql_falsy_value_witness :
  let q := orders_query ["customer"] [] in
  dict_get (DataSet.columns (data_set q)) "customer"
  = Some (Column.mk "customer" "text")
  /\ (Column.type (Column.mk "customer" "text") = "text"
      \/ Column.type (Column.mk "customer" "text") = "text[]")
  /\ truthy (VScalar SNone) = false
  /\ filter_to_sql pg_quote_identifier pg_quote_text_literal q
       (Filter.mk "customer" "~" (VScalar SNone))
     = filter_to_sql pg_quote_identifier pg_quote_text_literal q
         (Filter.mk "customer" "~" (VList [SStr ""])).
Proof.
  intros q. split; [reflexivity|]. split; [left; reflexivity|].
  split; [reflexivity|].
  apply (filter_to_sql_falsy_value pg_quote_identifier pg_quote_text_literal
           q "customer" "~" (VScalar SNone) (Column.mk "customer" "text")).
  - reflexivity.
  - left. reflexivity.
  - reflexivity.
Defined.

(** X7: on a text column every operator other than [~] and [=] compiles
    as [!=] does (to [NOT IN]), and on a text-array column every operator
    other than [!=] compiles as [=] does (to the overlap test): the
    operator text itself never reaches the predicate. *)
Theorem filter_to_sql_operator_classes
    (quote_identifier : string -> string -> string)
    (quote_text_literal : string -> scalar -> result string)
    (q : Query) (column_name operator : string) (v : value)
    (column : Column.t) :
  dict_get (DataSet.columns (data_set q)) column_name = Some column ->
  (Column.type column = "text" -> operator <> "~" -> operator <> "=" ->
   filter_to_sql quote_identifier quote_text_literal q
                 (Filter.mk column_name operator v)
   = filter_to_sql quote_identifier quote_text_literal q
                   (Filter.mk column_name "!=" v))
  /\ (Column.type column = "text[]" -> operator <> "!=" ->
      filter_to_sql quote_identifier quote_text_literal q
                    (Filter.mk column_name operator v)
      = filter_to_sql quote_identifier quote_text_literal q
                      (Filter.mk column_name "=" v)).
Proof.
  intros Hget. split.
  - intros Htype Hc He. unfold filter_to_sql, dict_item.
    cbn [Filter.column_name Filter.operator Filter.value].
    rewrite Hget. cbn [bind]. rewrite Htype.
    apply String.eqb_neq in Hc. apply String.eqb_neq in He.
    rewrite Hc, He. reflexivity.
  - intros Htype Hn. unfold filter_to_sql, dict_item.
    cbn [Filter.column_name Filter.operator Filter.value].
    rewrite Hget. cbn [bind]. rewrite Htype.
    apply String.eqb_neq in Hn. rewrite Hn. reflexivity.
Qed.

Lemma filter_to_sql_operator_classes_witness :
  let q := orders_query ["customer"] [] in
  dict_get (DataSet.columns (data_set q)) "customer"
  = Some (Column.mk "customer" "text")
  /\ filter_to_sql pg_quote_identifier pg_quote_text_literal q
       (Filter.mk "customer" "IN" (VList [SStr "a"]))
     = filter_to_sql pg_quote_identifier pg_quote_text_literal q
         (Filter.mk "customer" "!=" (VList [SStr "a"])).
Proof.
  intros q. split; [reflexivity|].
  destruct (filter_to_sql_operator_classes pg_quote_identifier
              pg_quote_text_literal q "customer" "IN" (VList [SStr "a"])
              (Column.mk "customer" "text") eq_refl) as [Htext _].
  apply Htext.
  - reflexivity.
  - discriminate.
  - discriminate.
Defined.

(** X8: on a text-array column the predicate of [!=] is the predicate of
    [=] wrapped in [ not (...)], and one compiles exactly when the other
    does. *)
Theorem filter_to_sql_array_negation
    (quote_identifier : string -> string -> string)
    (quote_text_literal : string -> scalar -> result string)
    (q : Query) (column_name : string) (v : value) (column : Column.t) :
  dict_get (DataSet.columns (data_set q)) column_name = Some column ->
  Column.type column = "text[]" ->
  filter_to_sql quote_identifier quote_text_literal q
                (Filter.mk column_name "!=" v)
  = (overlap <- filter_to_sql quote_identifier quote_text_literal q
                              (Filter.mk column_name "=" v) ;;
     Ok (" not (" ++ overlap ++ ")")).
Proof.
  intros Hget Htype. unfold filter_to_sql, dict_item.
  cbn [Filter.column_name Filter.operator Filter.value].
  rewrite Hget. cbn [bind]. rewrite Htype.
  change (String.eqb "text[]" "text") with false.
  change (String.eqb "text[]" "text[]") with true.
  change (String.eqb "!=" "!=") with true.
  change (String.eqb "=" "!=") with false.
  cbn iota.
  destruct (values_or_blank v) as [values|e]; reflexivity.
Qed.

Lemma filter_to_sql_array_negation_witness :
  let q := orders_query ["tags"] [] in
  dict_get (DataSet.columns (data_set q)) "tags"
  = Some (Column.mk "tags" "text[]")
  /\ Column.type (Column.mk "tags" "text[]") = "text[]"
  /\ filter_to_sql pg_quote_identifier pg_quote_text_literal q
       (Filter.mk "tags" "!=" (VList [SStr "new"; SStr "vip"]))
     = (overlap <- filter_to_sql pg_quote_identifier pg_quote_text_literal q
                     (Filter.mk "tags" "=" (VList [SStr "new"; SStr "vip"])) ;;
        Ok (" not (" ++ overlap ++ ")")).
Proof.
  intros q. split; [reflexivity|]. split; [reflexivity|].
  apply (filter_to_sql_array_negation pg_quote_identifier
           pg_quote_text_literal q "tags" (VList [SStr "new"; SStr "vip"])
           (Column.mk "tags" "text[]")); reflexivity.
Defined.

(** Witness of [filter_to_sql_contains_quoted] (X9): the values [abc]
    and [xyz] on the text column [customer]. *)
Lemma filter_to_sql_contains_quoted_witness :
  let q := orders_query ["customer"] [] in
  dict_get (DataSet.columns (data_set q)) "customer"
  = Some (Column.mk "customer" "text")
  /\ Column.type (Column.mk "customer" "text") = "text"
  /\ [SStr "abc"; SStr "xyz"] <> []
  /\ traverse (pg_quote_text_literal (db_of q)) [SStr "abc"; SStr "xyz"]
     = Ok ["'abc'"; "'xyz'"]
  /\ filter_to_sql pg_quote_identifier pg_quote_text_literal q
       (Filter.mk "customer" "~" (VList [SStr "abc"; SStr "xyz"]))
     = Ok ("(" ++ String.concat " OR "
                    (map (fun lit =>
                            "lower("
                            ++ pg_quote_identifier (db_of q) "customer"
                            ++ ") LIKE concat('%', " ++ lit ++ ", '%')")
                         ["'abc'"; "'xyz'"])
           ++ ")").
Proof.
  intros q. split; [reflexivity|]. split; [reflexivity|].
  split; [discriminate|]. split; [reflexivity|].
  apply (filter_to_sql_contains_quoted pg_quote_identifier
           pg_quote_text_literal q "customer" (Column.mk "customer" "text")
           [SStr "abc"; SStr "xyz"] ["'abc'"; "'xyz'"]).
  - reflexivity.
  - reflexivity.
  - discriminate.
  - reflexivity.
Defined.

(** ** Compiling whole queries *)

(** [traverse] fails with the exception of the first element that fails,
    and succeeds exactly when every element succeeds. *)
Lemma traverse_raise {A B : Type} (f : A -> result B) (xs : list A)
    (e : exception) :
  traverse f xs = Raise e <->
  exists before x after,
    xs = (before ++ x :: after)%list
    /\ Forall (fun y => exists b, f y = Ok b) before
    /\ f x = Raise e.
Proof.
  induction xs as [|x xs IH]; simpl.
  - split; [discriminate|].
    intros (before & y & after & H & _). destruct before; discriminate.
  - destruct (f x) as [b|e'] eqn:Hx; simpl.
    + destruct (traverse f xs) as [bs|e''] eqn:Ht; simpl.
      * split; [discriminate|].
        intros (before & y & after & H & Hall & Hy).
        destruct before as [|z before]; simpl in H; injection H as -> ->.
        -- congruence.
        -- inversion Hall; subst.
           assert (Hex : exists before0 x0 after0,
                      (before ++ y :: after)%list
                      = (before0 ++ x0 :: after0)%list
                      /\ Forall (fun y0 => exists b0, f y0 = Ok b0) before0
                      /\ f x0 = Raise e) by (exists before, y, after; auto).
           apply IH in Hex. discriminate.
      * split.
        -- intros H. injection H as ->.
           destruct IH as [IH _]. destruct (IH eq_refl)
             as (before & y & after & -> & Hall & Hy).
           exists (x :: before), y, after. repeat split; auto.
           constructor; [eauto | exact Hall].
        -- intros (before & y & after & H & Hall & Hy).
           destruct before as [|z before]; simpl in H; injection H as -> ->.
           ++ congruence.
           ++ inversion Hall; subst.
              destruct IH as [_ IH]. rewrite IH; [reflexivity|].
              exists before, y, after. auto.
    + split.
      * intros H. injection H as ->.
        exists [], x, xs. repeat split; auto.
      * intros (before & y & after & H & Hall & Hy).
        destruct before as [|z before]; simpl in H; injection H as -> ->.
        -- congruence.
        -- inversion Hall as [|? ? [b Hb] _]; subst. congruence.
Qed.

(** X10: [filters_to_sql] fails exactly when some filter of the query
    fails to compile, and then with the exception of the first such
    filter; with no filter at all it is the empty text. *)
Theorem filters_to_sql_first_error
    (quote_identifier : string -> string -> string)
    (quote_text_literal : string -> scalar -> result string)
    (q : Query) (e : exception) :
  (filters q = [] ->
   filters_to_sql quote_identifier quote_text_literal q = Ok "")
  /\ (filters_to_sql quote_identifier quote_text_literal q = Raise e <->
      exists before f after,
        filters q = (before ++ f :: after)%list
        /\ Forall (fun g =>
                     exists sql,
                       filter_to_sql quote_identifier quote_text_literal q g
                       = Ok sql) before
        /\ filter_to_sql quote_identifier quote_text_literal q f = Raise e).
Proof.
  split.
  - intros H. unfold filters_to_sql. rewrite H. reflexivity.
  - rewrite <- traverse_raise. unfold filters_to_sql.
    destruct (filters q) as [|f fs] eqn:Hf.
    + simpl. split; discriminate.
    + cbn [list_is_empty].
      destruct (traverse (filter_to_sql quote_identifier quote_text_literal q)
                         (f :: fs)) as [parts|e']; simpl.
      * split; discriminate.
      * split; intros H; injection H as ->; reflexivity.
Qed.

(** X11: [to_sql] returns [None] exactly when the query has no column;
    with columns it returns a statement or raises. *)
Theorem to_sql_none_iff
    (quote_identifier : string -> string -> string)
    (quote_text_literal : string -> scalar -> result string)
    (q : Query) (limit offset : option Z) (decimal_mark : string)
    (include_personal_data : bool) :
  to_sql quote_identifier quote_text_literal q limit offset decimal_mark
         include_personal_data = Ok None
  <-> column_names q = [].
Proof.
  unfold to_sql. destruct (column_names q) as [|name names].
  - split; reflexivity.
  - cbn [list_is_empty].
    destruct (traverse (select_item quote_identifier q decimal_mark
                                    include_personal_data) (name :: names));
      cbn [bind]; [|split; discriminate].
    destruct (filters_to_sql quote_identifier quote_text_literal q);
      cbn [bind]; split; discriminate.
Qed.

Lemma string_append_assoc (a b c : string) :
  (a ++ b) ++ c = a ++ (b ++ c).
Proof.
  induction a as [|x a IH]; simpl; [reflexivity | rewrite IH; reflexivity].
Qed.

(** X12: every entry of the select list carries the name of its column:
    it is the quoted column itself or an expression aliased ([AS]) to the
    quoted column, so the result columns are the selected columns in their
    order, with or without redaction and decimal comma.  With personal
    data included and a decimal mark other than the comma the select list
    is the list of the quoted columns. *)
Theorem select_list_shape
    (quote_identifier : string -> string -> string)
    (q : Query) (decimal_mark : string) (include_personal_data : bool)
    (names items : list string) :
  traverse (select_item quote_identifier q decimal_mark
                        include_personal_data) names = Ok items ->
  Forall2 (fun name item =>
             item = quote_identifier (db_of q) name
             \/ exists expression,
                 item = expression ++ " AS "
                        ++ quote_identifier (db_of q) name)
          names items
  /\ (include_personal_data = true -> decimal_mark <> "," ->
      items = map (quote_identifier (db_of q)) names).
Proof.
  revert items. induction names as [|name names IH]; intros items H.
  - simpl in H. injection H as <-. split; [constructor | reflexivity].
  - cbn [traverse] in H.
    destruct (select_item quote_identifier q decimal_mark
                          include_personal_data name) as [item|] eqn:Hi;
      cbn [bind] in H; [|discriminate].
    destruct (traverse (select_item quote_identifier q decimal_mark
                                    include_personal_data) names)
      as [rest|] eqn:Hr; cbn [bind] in H; [|discriminate].
    injection H as <-. destruct (IH rest eq_refl) as [Hall Hplain].
    unfold select_item in Hi.
    destruct (negb include_personal_data
              && list_mem name
                   (DataSet.personal_data_column_names (data_set q)))
      eqn:Hp.
    + injection Hi as <-. split.
      * constructor; [|exact Hall]. right. eexists. reflexivity.
      * intros -> _. discriminate Hp.
    + destruct (dict_item (DataSet.columns (data_set q)) name) as [c|];
        cbn [bind] in Hi; [|discriminate].
      destruct (String.eqb (Column.type c) "number") eqn:Hn;
        destruct (String.eqb decimal_mark ",") eqn:Hd;
        cbn [andb] in Hi; injection Hi as <-.
      * split.
        -- constructor; [|exact Hall]. right.
           exists ("REPLACE('' || " ++ quote_identifier (db_of q) name
                   ++ ", '.', ',')").
           rewrite !string_append_assoc. reflexivity.
        -- intros _ Hne. apply String.eqb_eq in Hd. contradiction.
      * split; [constructor; auto|].
        intros Ht Hne. cbn [map]. rewrite (Hplain Ht Hne). reflexivity.
      * split; [constructor; auto|].
        intros Ht Hne. apply String.eqb_eq in Hd. contradiction.
      * split; [constructor; auto|].
        intros Ht Hne. cbn [map]. rewrite (Hplain Ht Hne). reflexivity.
Qed.

Lemma select_list_shape_witness :
  let q := orders_query ["customer"; "amount"] [] in
  let items :=
    [pg_quote_identifier "dwh" "🔒" ++ " AS "
     ++ pg_quote_identifier "dwh" "customer";
     "REPLACE('' || " ++ pg_quote_identifier "dwh" "amount"
     ++ ", '.', ',') AS " ++ pg_quote_identifier "dwh" "amount"] in
  traverse (select_item pg_quote_identifier q "," false)
           ["customer"; "amount"] = Ok items
  /\ Forall2 (fun name item =>
                item = pg_quote_identifier (db_of q) name
                \/ exists expression,
                    item = expression ++ " AS "
                           ++ pg_quote_identifier (db_of q) name)
             ["customer"; "amount"] items
  /\ (false = true -> "," <> "," ->
      items = map (pg_quote_identifier (db_of q)) ["customer"; "amount"]).
Proof.
  intros q items. split; [reflexivity|].
  apply (select_list_shape pg_quote_identifier q "," false
           ["customer"; "amount"] items).
  reflexivity.
Defined.

Lemma traverse_ok {A B : Type} (f : A -> result B) (xs : list A) :
  Forall (fun x => exists b, f x = Ok b) xs ->
  exists bs, traverse f xs = Ok bs.
Proof.
  induction 1 as [|x xs [b Hb] _ [bs Hbs]].
  - exists []. reflexivity.
  - exists (b :: bs). simpl. rewrite Hb, Hbs. reflexivity.
Qed.

(** A filter on a schema column whose type is neither text nor text
    array always compiles. *)
Lemma plain_filter_compiles
    (quote_identifier : string -> string -> string)
    (quote_text_literal : string -> scalar -> result string)
    (q : Query) (f : Filter.t) (type : string) :
  column_type (data_set q) (Filter.column_name f) = Some type ->
  plain_type type = true ->
  exists sql, filter_to_sql quote_identifier quote_text_literal q f = Ok sql.
Proof.
  unfold column_type, plain_type, filter_to_sql, dict_item.
  intros Hget Hplain.
  destruct (dict_get (DataSet.columns (data_set q)) (Filter.column_name f))
    as [c|]; [|discriminate].
  cbn [option_map] in Hget. injection Hget as Hget. cbn [bind]. cbv zeta.
  rewrite Hget.
  apply andb_true_iff in Hplain. destruct Hplain as [Ht Ha].
  apply negb_true_iff in Ht. apply negb_true_iff in Ha.
  rewrite Ht, Ha.
  destruct (String.eqb type "number"); [eexists; reflexivity|].
  destruct (String.eqb type "date"); eexists; reflexivity.
Qed.

Lemma resolved_in_schema (ds : DataSet.t) :
  let defaults := filter (dict_mem (DataSet.columns ds))
                         (DataSet.default_column_names ds) in
  Forall (schema_column ds)
         (if list_is_empty defaults then dict_keys (DataSet.columns ds)
          else defaults).
Proof.
  intros defaults.
  assert (Hdefaults : Forall (schema_column ds) defaults).
  { apply Forall_forall. intros name Hin. unfold defaults in Hin.
    apply filter_In in Hin. destruct Hin as [_ Hmem].
    apply dict_mem_keys. exact Hmem. }
  destruct (list_is_empty defaults); [|exact Hdefaults].
  apply Forall_forall. intros name Hin. exact Hin.
Qed.

(** X13: validation makes compilation succeed.  For a data set with at
    least one column, a query constructed without explicit column names,
    all of whose filters on schema columns are on columns of a type other
    than text and text array, compiles: [to_sql] returns a statement,
    whatever the sort arguments, limit, offset, decimal mark and redaction
    flag. *)
Theorem constructed_query_compiles
    (quote_identifier : string -> string -> string)
    (quote_text_literal : string -> scalar -> result string)
    (find_data_set : string -> result DataSet.t)
    (normalize_unicode : string -> string) (ds : DataSet.t)
    (data_set_id : string) (query_id : option string)
    (names : option (list string))
    (sort_column sort_order_arg : option string)
    (filters_arg : option (list Filter.t))
    (created_at_arg : option py_time) (created_by_arg : option string)
    (updated_at_arg : option py_time) (updated_by_arg : option string)
    (limit offset : option Z) (decimal_mark : string)
    (include_personal_data : bool) :
  find_data_set data_set_id = Ok ds ->
  or_empty names = [] ->
  DataSet.columns ds <> [] ->
  Forall (fun f => forall type,
                     column_type ds (Filter.column_name f) = Some type ->
                     plain_type type = true)
         (or_empty filters_arg) ->
  exists q sql,
    new_query find_data_set normalize_unicode data_set_id query_id names sort_column
              sort_order_arg filters_arg created_at_arg created_by_arg
              updated_at_arg updated_by_arg = Ok q
    /\ to_sql quote_identifier quote_text_literal q limit offset decimal_mark
              include_personal_data = Ok (Some sql).
Proof.
  intros Hds Hnames Hcols Hplain.
  unfold new_query. rewrite Hds. cbn [bind]. rewrite Hnames.
  cbn [list_is_empty].
  match goal with
  | |- exists q sql, Ok ?r = Ok q /\ _ => set (q0 := r)
  end.
  exists q0.
  assert (Hin : Forall (schema_column (data_set q0)) (column_names q0)).
  { exact (resolved_in_schema ds). }
  assert (Hne : list_is_empty (column_names q0) = false).
  { unfold q0. cbn [column_names].
    destruct (list_is_empty
                (filter (dict_mem (DataSet.columns ds))
                        (DataSet.default_column_names ds))) eqn:E;
      [|exact E].
    destruct (DataSet.columns ds); [congruence | reflexivity]. }
  assert (Hfilters : exists parts,
             traverse (filter_to_sql quote_identifier quote_text_literal q0)
                      (filters q0) = Ok parts).
  { apply traverse_ok. apply Forall_forall. intros f Hf.
    unfold q0 in Hf. cbn [filters] in Hf. apply filter_In in Hf.
    destruct Hf as [Hf Hmem].
    rewrite Forall_forall in Hplain. specialize (Hplain f Hf).
    unfold dict_mem in Hmem.
    destruct (dict_get (DataSet.columns ds) (Filter.column_name f))
      as [c|] eqn:Hc; [|discriminate].
    apply (plain_filter_compiles quote_identifier quote_text_literal q0 f
             (Column.type c)).
    - unfold column_type, q0. cbn [data_set]. rewrite Hc. reflexivity.
    - apply Hplain. unfold column_type. rewrite Hc. reflexivity. }
  destruct (select_items_ok quote_identifier q0 decimal_mark
              include_personal_data (column_names q0) Hin) as [items Hitems].
  destruct Hfilters as [parts Hparts].
  unfold to_sql. rewrite Hne, Hitems. cbn [bind].
  unfold filters_to_sql. rewrite Hparts.
  destruct (list_is_empty (filters q0)); cbn [bind];
    eexists; split; reflexivity.
Qed.

Lemma constructed_query_compiles_witness :
  find_orders "orders" = Ok orders
  /\ or_empty (@None (list string)) = []
  /\ DataSet.columns orders <> []
  /\ exists q sql,
      new_query find_orders no_unicode "orders" None None (Some "amount") (Some "DESC")
                (Some [Filter.mk "amount" ">" (VScalar (SInt 3));
                       Filter.mk "legacy" "~" (VScalar (SInt 1))])
                None None None None = Ok q
      /\ to_sql pg_quote_identifier pg_quote_text_literal q (Some 5) None
                "," false = Ok (Some sql).
Proof.
  split; [reflexivity|]. split; [reflexivity|]. split; [discriminate|].
  apply (constructed_query_compiles pg_quote_identifier pg_quote_text_literal
           find_orders no_unicode orders "orders" None None (Some "amount") (Some "DESC")
           (Some [Filter.mk "amount" ">" (VScalar (SInt 3));
                  Filter.mk "legacy" "~" (VScalar (SInt 1))])
           None None None None (Some 5) None "," false).
  - reflexivity.
  - reflexivity.
  - discriminate.
  - repeat constructor; intros type H; vm_compute in H;
      try discriminate; injection H as <-; reflexivity.
Defined.

(** ** Running and exporting *)

(** X14: on a query without columns the three ways of fetching rows
    disagree: [run] and [as_rows_for_google_sheet] give no rows and
    execute nothing, while [as_csv] raises [AttributeError], whatever the
    executor, the cursor and the CSV writer do. *)
Theorem exports_without_columns
    (quote_identifier : string -> string -> string)
    (quote_text_literal : string -> scalar -> result string)
    (execute_query : string -> string -> result (list row * list string))
    (cursor_fetch :
       string -> string -> result (list (list sheet_value) * list string))
    (csv_output : string -> list string -> list row -> result string)
    (q : Query) (limit offset : option Z)
    (delimiter decimal_mark array_format : string)
    (header include_personal_data : bool) :
  column_names q = [] ->
  run quote_identifier quote_text_literal execute_query q limit offset
      include_personal_data = Ok []
  /\ as_rows_for_google_sheet quote_identifier quote_text_literal
       cursor_fetch q array_format header limit include_personal_data = Ok []
  /\ as_csv quote_identifier quote_text_literal execute_query csv_output q
            delimiter decimal_mark include_personal_data
     = Raise AttributeError.
Proof.
  intros H. unfold run, as_rows_for_google_sheet, as_csv, to_sql.
  rewrite H. repeat split; reflexivity.
Qed.

Lemma exports_without_columns_witness :
  let q := orders_query [] [] in
  column_names q = []
  /\ run pg_quote_identifier pg_quote_text_literal count_executor q
         None None true = Ok []
  /\ as_rows_for_google_sheet pg_quote_identifier pg_quote_text_literal
       (fun _ _ => Ok ([[GStr "x"]], ["c"])) q "curly" true None true = Ok []
  /\ as_csv pg_quote_identifier pg_quote_text_literal count_executor
            (fun _ _ _ => Ok "") q "," "." true
     = Raise AttributeError.
Proof.
  intros q. split; [reflexivity|].
  apply (exports_without_columns pg_quote_identifier pg_quote_text_literal
           count_executor (fun _ _ => Ok ([[GStr "x"]], ["c"]))
           (fun _ _ _ => Ok "") q None None "," "." "curly" true true).
  reflexivity.
Defined.

Lemma string_length_append (a b : string) :
  String.length (a ++ b) = (String.length a + String.length b)%nat.
Proof.
  induction a as [|c a IH]; simpl; [reflexivity | rewrite IH; reflexivity].
Qed.

Lemma substring_length_le (n : nat) :
  forall s, (String.length (substring 0 n s) <= n)%nat.
Proof.
  induction n as [|n IH]; intros s; destruct s as [|c s]; simpl; try lia.
  specialize (IH s). lia.
Qed.

Lemma replace_tab_length (s : string) :
  (String.length s <= String.length (replace_tab s))%nat.
Proof.
  induction s as [|c s IH]; simpl; [lia|].
  destruct (Ascii.eqb c tab_char); simpl; lia.
Qed.

Lemma shorten_length (s otherwise : string) :
  ((py_len s <= cell_limit)%Z -> (py_len otherwise <= cell_limit)%Z) ->
  (py_len (shorten s otherwise) <= cell_limit)%Z.
Proof.
  intros H. unfold shorten.
  destruct (cell_limit <? py_len s)%Z eqn:E.
  - unfold py_len, slice_to. rewrite string_length_append.
    pose proof (substring_length_le (Z.to_nat cell_keep) s) as Hs.
    change (String.length " ... ") with 5%nat.
    unfold cell_limit, cell_keep in *. lia.
  - apply Z.ltb_ge in E. apply H. exact E.
Qed.

Lemma substring_split (n : nat) :
  forall s, (n <= String.length s)%nat ->
            exists rest,
              s = substring 0 n s ++ rest
              /\ String.length (substring 0 n s) = n.
Proof.
  induction n as [|n IH]; intros s Hn.
  - exists s. destruct s; split; reflexivity.
  - destruct s as [|c s]; [simpl in Hn; lia|].
    destruct (IH s) as (rest & Hs & Hlen); [simpl in Hn; lia|].
    exists rest. simpl. split.
    + f_equal. exact Hs.
    + f_equal. exact Hlen.
Qed.

(** What the size rule makes of a text: a text within the limit gives
    [otherwise]; a longer one gives its first 48995 characters followed
    by [' ... ']. *)
Lemma shorten_cases (s otherwise : string) :
  ((py_len s <= cell_limit)%Z -> shorten s otherwise = otherwise)
  /\ ((cell_limit < py_len s)%Z ->
      exists kept rest,
        s = kept ++ rest /\ py_len kept = cell_keep
        /\ shorten s otherwise = kept ++ " ... ").
Proof.
  unfold shorten. split.
  - intros H. apply Z.ltb_ge in H. rewrite H. reflexivity.
  - intros H. apply Z.ltb_lt in H as E. rewrite E.
    destruct (substring_split (Z.to_nat cell_keep) s) as (rest & Hs & Hlen).
    { unfold py_len, cell_limit, cell_keep in *. lia. }
    exists (slice_to cell_keep s), rest. unfold slice_to, py_len.
    split; [exact Hs|]. split; [|reflexivity].
    rewrite Hlen. unfold cell_keep. lia.
Qed.

(** X15: the size rule of [as_rows_for_google_sheet].  Every text and
    every array cell put into a row has at most 50000 characters, for
    every array format.  A text whose tab-expanded form fits into the
    limit is passed on unchanged, tabs included, and an array whose
    rendering fits is passed on as rendered; of a longer tab-expanded
    text or rendering the first 48995 characters are kept and [' ... ']
    is appended. *)
Theorem sheet_cell_length (array_format : string) :
  (forall value,
      exists s,
        sheet_cell array_format (GStr value) = GStr s
        /\ (py_len s <= cell_limit)%Z
        /\ ((py_len (replace_tab value) <= cell_limit)%Z -> s = value)
        /\ ((cell_limit < py_len (replace_tab value))%Z ->
            exists kept rest,
              replace_tab value = kept ++ rest
              /\ py_len kept = 48995%Z
              /\ s = kept ++ " ... "))
  /\ (forall xs,
         exists s,
           sheet_cell array_format (GList xs) = GStr s
           /\ (py_len s <= cell_limit)%Z
           /\ ((py_len (list_value_str array_format xs) <= cell_limit)%Z ->
               s = list_value_str array_format xs)
           /\ ((cell_limit < py_len (list_value_str array_format xs))%Z ->
               exists kept rest,
                 list_value_str array_format xs = kept ++ rest
                 /\ py_len kept = 48995%Z
                 /\ s = kept ++ " ... ")).
Proof.
  split.
  - intros value. eexists. split; [reflexivity|]. split; [|split].
    + apply shorten_length. intros H.
      pose proof (replace_tab_length value). unfold py_len in *. lia.
    + apply shorten_cases.
    + apply shorten_cases.
  - intros xs. eexists. split; [reflexivity|]. split; [|split].
    + apply shorten_length. intros H. exact H.
    + apply shorten_cases.
    + apply shorten_cases.
Qed.

(** X16: the rows yielded by [as_rows_for_google_sheet] keep the shape of
    what the cursor fetched: with [header] the first row holds the column
    names of the cursor description and one row follows per fetched row,
    without [header] there is exactly one row per fetched row; each row
    has as many cells as the fetched row it comes from. *)
Theorem sheet_rows_shape
    (quote_identifier : string -> string -> string)
    (quote_text_literal : string -> scalar -> result string)
    (cursor_fetch :
       string -> string -> result (list (list sheet_value) * list string))
    (q : Query) (array_format : string) (header : bool) (limit : option Z)
    (include_personal_data : bool) (sql : string)
    (fetched : list (list sheet_value)) (description : list string) :
  to_sql quote_identifier quote_text_literal q limit None "."
         include_personal_data = Ok (Some sql) ->
  cursor_fetch (db_of q) sql = Ok (fetched, description) ->
  exists data,
    as_rows_for_google_sheet quote_identifier quote_text_literal cursor_fetch
      q array_format header limit include_personal_data
    = Ok ((if header then [map GStr description] else []) ++ data)%list
    /\ Forall2 (fun r r' =>
                  r' = map (sheet_cell array_format) r
                  /\ List.length r' = List.length r)
               fetched data.
Proof.
  intros Hsql Hfetch. exists (map (map (sheet_cell array_format)) fetched).
  split.
  - unfold as_rows_for_google_sheet.
    destruct (list_is_empty (column_names q)) eqn:E.
    + unfold to_sql in Hsql. rewrite E in Hsql. discriminate.
    + rewrite Hsql. cbn [bind]. rewrite Hfetch. reflexivity.
  - clear Hfetch. induction fetched as [|r rows IH]; simpl; constructor.
    + split; [reflexivity | apply length_map].
    + exact IH.
Qed.

Lemma sheet_rows_shape_witness :
  let q := orders_query ["customer"; "tags"] [] in
  let cursor := fun (_ _ : string) =>
    Ok ([[GStr "ann"; GList [SStr "new"; SStr "vip"]];
         [GStr "bob"; GList []]], ["customer"; "tags"]) in
  exists sql data,
    to_sql pg_quote_identifier pg_quote_text_literal q (Some 2) None "."
           true = Ok (Some sql)
    /\ as_rows_for_google_sheet pg_quote_identifier pg_quote_text_literal
         cursor q "curly" true (Some 2) true
       = Ok ([map GStr ["customer"; "tags"]] ++ data)%list
    /\ Forall2 (fun r r' =>
                  r' = map (sheet_cell "curly") r
                  /\ List.length r' = List.length r)
               [[GStr "ann"; GList [SStr "new"; SStr "vip"]];
                [GStr "bob"; GList []]] data.
Proof.
  intros q cursor. eexists.
  destruct (sheet_rows_shape pg_quote_identifier pg_quote_text_literal cursor
              q "curly" true (Some 2) true _
              [[GStr "ann"; GList [SStr "new"; SStr "vip"]];
               [GStr "bob"; GList []]] ["customer"; "tags"]
              eq_refl eq_refl) as (data & Hrows & Hshape).
  exists data. split; [reflexivity|]. split; assumption.
Defined.

(** ** Row counts *)

(** Witness of [filter_row_count_index_error] (X17): position 2 in a
    query with one filter. *)
Lemma filter_row_count_index_error_witness :
  let q := orders_query ["amount"]
             [Filter.mk "amount" ">" (VScalar (SInt 3))] in
  (2 < - Z.of_nat (List.length (filters q))
   \/ Z.of_nat (List.length (filters q)) <= 2)%Z
  /\ filter_row_count pg_quote_identifier pg_quote_text_literal
                      count_executor q 2 = Raise IndexError.
Proof.
  intros q. split; [right; simpl; lia|].
  apply (filter_row_count_index_error pg_quote_identifier
           pg_quote_text_literal count_executor q 2).
  right. simpl. lia.
Defined.

(** X18: when the filters compile and the executor answers, [row_count]
    returns the first value of the first row, and raises [IndexError]
    when the executor returns no row or an empty first row; when a filter
    does not compile it raises that filter's exception and nothing is
    executed. *)
Theorem row_count_result
    (quote_identifier : string -> string -> string)
    (quote_text_literal : string -> scalar -> result string)
    (execute_query : string -> string -> result (list row * list string))
    (q : Query) :
  (forall where_ rows names,
      filters_to_sql quote_identifier quote_text_literal q = Ok where_ ->
      execute_query (db_of q)
        (count_sql ++ quoted_table quote_identifier q ++ nl ++ where_ ++ nl)
      = Ok (rows, names) ->
      row_count quote_identifier quote_text_literal execute_query q
      = match rows with
        | (c :: _) :: _ => Ok c
        | _ => Raise IndexError
        end)
  /\ (forall e,
         filters_to_sql quote_identifier quote_text_literal q = Raise e ->
         row_count quote_identifier quote_text_literal execute_query q
         = Raise e).
Proof.
  split.
  - intros where_ rows names Hw He. unfold row_count.
    rewrite Hw. cbn [bind]. rewrite He. cbn [bind].
    destruct rows as [|[|c r] rows]; reflexivity.
  - intros e Hw. unfold row_count. rewrite Hw. reflexivity.
Qed.

(** ** Number histogram *)

(** X19: the two early exits of [number_distribution].  When the minimum
    the executor reports is [NULL] the histogram is empty.  When minimum
    and maximum are equal the start exponent is computed first, and an
    exception of that computation is the outcome; otherwise the histogram
    is the single entry made of the [float]s of minimum, maximum and
    count.  In both cases the loop is not entered (no fuel is needed) and
    no second statement is executed. *)
Theorem number_distribution_early_exits
    (quote_identifier : string -> string -> string)
    (quote_text_literal : string -> scalar -> result string)
    (execute_query : string -> string -> result (list row * list string))
    (log10 : Q -> Q) (float : Q -> pyfloat) (float_str : pyfloat -> string)
    (q : Query) (column_name and_filters : string)
    (min_cell max_cell count_cell : cell)
    (more_rows : list row) (names : list string) (fuel : nat) :
  and_filters_sql quote_identifier quote_text_literal q = Ok and_filters ->
  execute_query (db_of q)
    (number_stats_sql quote_identifier q column_name and_filters)
  = Ok ([min_cell; max_cell; count_cell] :: more_rows, names) ->
  (min_cell = CNull ->
   number_distribution quote_identifier quote_text_literal execute_query
                       log10 float float_str fuel q column_name
   = Some (Ok []))
  /\ (forall x y n,
         min_cell = CNum x -> max_cell = CNum y -> count_cell = CNum n ->
         (x == y)%Q ->
         (forall exponent c,
             start_exponent log10 x y = Ok exponent ->
             float n = Finite c ->
             number_distribution quote_identifier quote_text_literal
                                 execute_query log10 float float_str
                                 fuel q column_name
             = Some (Ok [(float x, float y, AsFloat (Finite c))]))
         /\ (forall e,
                start_exponent log10 x y = Raise e ->
                number_distribution quote_identifier quote_text_literal
                                    execute_query log10 float float_str
                                    fuel q column_name
                = Some (Raise e))).
Proof.
  intros Hand Hstats. split.
  - intros ->. unfold number_distribution, number_stats.
    rewrite Hand. cbn [bind]. rewrite Hstats. reflexivity.
  - intros x y n -> -> -> Heq. split.
    + intros exponent c Hstart Hfloat.
      unfold number_distribution, number_stats.
      rewrite Hand. cbn [bind]. rewrite Hstats. cbn. rewrite Hstart.
      apply Qeq_bool_iff in Heq. rewrite Heq. rewrite Hfloat. reflexivity.
    + intros e Hstart. unfold number_distribution, number_stats.
      rewrite Hand. cbn [bind]. rewrite Hstats. cbn. rewrite Hstart.
      reflexivity.
Qed.

Lemma number_distribution_early_exits_witness :
  let q := orders_query ["amount"] [] in
  let sevens := fun (_ _ : string) =>
    Ok ([[CNum 7; CNum 7; CNum 3]],
        ["min_value"; "max_value"; "number_of_values"]) in
  and_filters_sql pg_quote_identifier pg_quote_text_literal q = Ok ""
  /\ sevens (db_of q) (number_stats_sql pg_quote_identifier q "amount" "")
     = Ok ([[CNum 7; CNum 7; CNum 3]],
           ["min_value"; "max_value"; "number_of_values"])
  /\ number_distribution pg_quote_identifier pg_quote_text_literal sevens
                         sample_log10 sample_float plain_float_str
                         0 q "amount"
     = Some (Ok [(Finite 7, Finite 7, AsFloat (Finite 3))]).
Proof.
  intros q sevens. split; [reflexivity|]. split; [reflexivity|].
  destruct (number_distribution_early_exits pg_quote_identifier
              pg_quote_text_literal sevens sample_log10 sample_float
              plain_float_str q "amount" ""
              (CNum 7) (CNum 7) (CNum 3) []
              ["min_value"; "max_value"; "number_of_values"] 0%nat
              eq_refl eq_refl) as [_ Hsingle].
  destruct (Hsingle (7 # 1) (7 # 1) (3 # 1) eq_refl eq_refl eq_refl)
    as [Hok _]; [reflexivity|].
  apply (Hok 1%Z (3 # 1)); reflexivity.
Defined.

(** When ten to the start exponent is at least the magnitude of both
    operands, both scaled operands lie between -1 and 1 at the start
    exponent, so the first test of the loop does not succeed. *)
Lemma first_iteration_fails (min_value max_value : Q) (e0 : Z) :
  (Qabs min_value <= pow10 e0)%Q -> (Qabs max_value <= pow10 e0)%Q ->
  spec_enough_buckets min_value max_value e0 = false.
Proof.
  intros Hlo0 Hhi0.
  unfold spec_enough_buckets, min_buckets, spec_ceil, spec_floor.
  pose proof (pow10_pos e0) as Hp.
  apply Qabs_Qle_condition in Hlo0. apply Qabs_Qle_condition in Hhi0.
  assert (Hc : (Qceiling (max_value / pow10 e0) <= 1)%Z).
  { rewrite <- (Qceiling_Z 1). apply Qceiling_resp_le.
    apply Qle_shift_div_r; [exact Hp|]. change (inject_Z 1) with 1%Q. lra. }
  assert (Hf : (-1 <= Qfloor (min_value / pow10 e0))%Z).
  { rewrite <- (Qfloor_Z (-1)). apply Qfloor_resp_le.
    apply Qle_shift_div_l; [exact Hp|]. change (inject_Z (-1)) with (-1)%Q.
    lra. }
  apply Z.ltb_ge. lia.
Qed.

(** X21: the number of buckets.  For a minimum below a maximum that are
    decimals of at most 28 digits with the exponents in the range of the
    decimal context, and a start exponent whose power of ten is at least
    the magnitude of both, the loop stops strictly below the start
    exponent, and the number of buckets it defines, [max_ - min_], lies
    between 6 and 51. *)
Theorem bucket_count_bounds
    (log10 : Q -> Q) (min_value max_value : Q) (a b p e0 : Z) :
  decimal_of a p min_value -> decimal_of b p max_value ->
  (a < b)%Z -> (Z.abs a < 10 ^ prec)%Z -> (Z.abs b < 10 ^ prec)%Z ->
  start_exponent log10 min_value max_value = Ok e0 ->
  (Etiny < p)%Z -> (p - 1 <= e0)%Z -> (e0 <= Emax)%Z ->
  (Etiny + e0 <= p)%Z ->
  (Qabs min_value <= pow10 e0)%Q -> (Qabs max_value <= pow10 e0)%Q ->
  exists (steps : nat) (exponent min_ max_ : Z),
    (forall fuel, (steps <= fuel)%nat ->
       find_buckets fuel min_value max_value e0
       = Some (Ok (exponent, min_, max_)))
    /\ (exponent < e0)%Z
    /\ (6 <= max_ - min_ <= 51)%Z.
Proof.
  intros Hlo Hhi Hab Ha Hb _ Hp He0 Hmax Htiny Hmlo Hmhi.
  pose proof (decimal_of_lt _ _ _ _ _ Hlo Hhi Hab) as Hlt.
  destruct (spec_find_buckets_terminates min_value max_value e0 Hlt)
    as (steps & e & Hrun & Hle & _ & Hgt & Hfirst).
  unfold min_buckets in Hgt.
  assert (He : (e < e0)%Z).
  { destruct (Z.eq_dec e e0) as [->|Hne]; [|lia].
    pose proof (first_iteration_fails min_value max_value e0 Hmlo Hmhi)
      as Hfail.
    unfold spec_enough_buckets, min_buckets in Hfail.
    apply Z.ltb_ge in Hfail. lia. }
  assert (Hprev : (spec_ceil max_value (e + 1)
                   - spec_floor min_value (e + 1) <= 5)%Z).
  { specialize (Hfirst (e + 1)%Z).
    unfold spec_enough_buckets, min_buckets in Hfirst.
    apply Z.ltb_ge. apply Hfirst. lia. }
  assert (Hupper : (spec_ceil max_value e - spec_floor min_value e
                    <= 51)%Z).
  { pose proof (scaled_gap min_value max_value (e + 1)) as Hgap.
    pose proof (pow10_pos e) as Hpe.
    assert (H5 : ((max_value - min_value) / pow10 (e + 1) <= 5)%Q).
    { apply (Qle_trans _ _ _ Hgap). change 5%Q with (inject_Z 5).
      rewrite <- Zle_Qle. exact Hprev. }
    assert (Hne : ~ (pow10 e == 0)%Q) by apply pow10_nonzero.
    assert (Hscale : ((max_value - min_value) / pow10 (e + 1)
                      == (max_value / pow10 e - min_value / pow10 e) / 10)%Q).
    { rewrite pow10_succ. field. exact Hne. }
    rewrite Hscale in H5.
    unfold spec_ceil, spec_floor.
    pose proof (Qceiling_lt (max_value / pow10 e)) as Hc.
    pose proof (Qlt_floor (min_value / pow10 e)) as Hf.
    set (u := (max_value / pow10 e)%Q) in *.
    set (v := (min_value / pow10 e)%Q) in *.
    unfold Z.sub in Hc. rewrite inject_Z_plus in Hc, Hf.
    change (inject_Z (- (1))) with (- (1))%Q in Hc.
    change (inject_Z 1) with 1%Q in Hf.
    assert (H50 : (u - v <= 50)%Q).
    { assert (Hd : ((u - v) / 10 * 10 == u - v)%Q) by field.
      rewrite <- Hd.
      setoid_replace 50%Q with (5 * 10)%Q by reflexivity.
      apply Qmult_le_compat_r; [exact H5 | discriminate]. }
    assert (Hz : (inject_Z (Qceiling u - Qfloor v) < inject_Z 52)%Q).
    { unfold Z.sub. rewrite inject_Z_plus, inject_Z_opp.
      change (inject_Z 52) with 52%Q. lra. }
    rewrite <- Zlt_Qlt in Hz. lia. }
  exists steps, e, (spec_floor min_value e), (spec_ceil max_value e).
  split; [|split; [exact He | lia]].
  intros fuel Hfuel.
  rewrite (find_buckets_exact fuel min_value max_value a b p e0).
  - rewrite (Hrun fuel Hfuel). reflexivity.
  - unfold exact_run. repeat split; assumption.
Qed.

Lemma bucket_count_bounds_witness :
  decimal_of 1 0 1 /\ decimal_of 1000 0 1000
  /\ (1 < 1000)%Z /\ (Z.abs 1 < 10 ^ prec)%Z /\ (Z.abs 1000 < 10 ^ prec)%Z
  /\ start_exponent sample_log10 1 1000 = Ok 3%Z
  /\ (Etiny < 0)%Z /\ (0 - 1 <= 3)%Z /\ (3 <= Emax)%Z /\ (Etiny + 3 <= 0)%Z
  /\ (Qabs 1 <= pow10 3)%Q /\ (Qabs 1000 <= pow10 3)%Q
  /\ exists (steps : nat) (exponent min_ max_ : Z),
      (forall fuel, (steps <= fuel)%nat ->
         find_buckets fuel 1 1000 3 = Some (Ok (exponent, min_, max_)))
      /\ (exponent < 3)%Z
      /\ (6 <= max_ - min_ <= 51)%Z.
Proof.
  split; [reflexivity|]. split; [reflexivity|]. split; [reflexivity|].
  split; [reflexivity|]. split; [reflexivity|]. split; [reflexivity|].
  split; [reflexivity|]. split; [discriminate|]. split; [discriminate|].
  split; [discriminate|]. split; [discriminate|]. split; [discriminate|].
  apply (bucket_count_bounds sample_log10 1 1000 1 1000 0 3).
  - reflexivity.
  - reflexivity.
  - reflexivity.
  - reflexivity.
  - reflexivity.
  - reflexivity.
  - reflexivity.
  - discriminate.
  - discriminate.
  - discriminate.
  - discriminate.
  - discriminate.
Defined.

(** ** Distributions and filters *)




(** ** Validation is a projection *)

(** X24: constructing a query again from the fields of a query that was
    constructed with an ASCII or absent query id gives the same query: the validation of the constructor (query
    id, column list, sort column, filters) changes nothing the second
    time. *)
Theorem new_query_idempotent
    (find_data_set : string -> result DataSet.t)
    (normalize_unicode : string -> string) (ds : DataSet.t)
    (id : string) (query_id_arg : option string)
    (names : option (list string))
    (sort_column sort_order_arg : option string)
    (filters_arg : option (list Filter.t))
    (created_at_arg : option py_time) (created_by_arg : option string)
    (updated_at_arg : option py_time) (updated_by_arg : option string) :
  find_data_set id = Ok ds ->
  ascii_id query_id_arg = true ->
  exists q,
    new_query find_data_set normalize_unicode id query_id_arg names sort_column sort_order_arg
              filters_arg created_at_arg created_by_arg updated_at_arg
              updated_by_arg = Ok q
    /\ new_query find_data_set normalize_unicode (data_set_id q) (Some (query_id q))
                 (Some (column_names q)) (sort_column_name q) (sort_order q)
                 (Some (filters q)) (created_at q) (created_by q)
                 (updated_at q) (updated_by q) = Ok q.
Proof.
  intros Hds Hascii. eexists. split.
  { unfold new_query. rewrite Hds. cbn [bind]. reflexivity. }
  unfold new_query.
  cbn [data_set data_set_id query_id column_names sort_column_name sort_order
       filters created_by updated_by created_at updated_at or_empty].
  rewrite Hds. cbn [bind].
  apply f_equal. f_equal.
  - apply normalize_query_id_idempotent. exact Hascii.
  - apply (resolve_columns_idempotent ds (or_empty names)).
  - destruct sort_column as [c|]; [|reflexivity].
    destruct (dict_mem (DataSet.columns ds) c) eqn:E; [rewrite E|]; reflexivity.
  - apply filter_idempotent.
Qed.

Lemma new_query_idempotent_witness :
  find_orders "orders" = Ok orders
  /\ ascii_id (Some "Big  Orders!") = true
  /\ exists q,
      new_query find_orders no_unicode "orders" (Some "Big  Orders!") None
                (Some "nowhere") (Some "DESC")
                (Some [Filter.mk "legacy" "=" (VList [SStr "a"]);
                       Filter.mk "amount" ">" (VScalar (SInt 3))])
                (Some (PyStr "2020-01-02")) (Some "alice") None None = Ok q
      /\ new_query find_orders no_unicode (data_set_id q) (Some (query_id q))
                   (Some (column_names q)) (sort_column_name q) (sort_order q)
                   (Some (filters q)) (created_at q) (created_by q)
                   (updated_at q) (updated_by q) = Ok q.
Proof.
  split; [reflexivity|]. split; [reflexivity|].
  apply (new_query_idempotent find_orders no_unicode orders "orders"
           (Some "Big  Orders!") None (Some "nowhere") (Some "DESC")
           (Some [Filter.mk "legacy" "=" (VList [SStr "a"]);
                  Filter.mk "amount" ">" (VScalar (SInt 3))])
           (Some (PyStr "2020-01-02")) (Some "alice") None None).
  - reflexivity.
  - reflexivity.
Defined.
